(** * domain-mask: the header-rewrite middleware and the URL transform

    A shallow embedding of [src/middleware.ts] ([eqHost], [normailzeUrl],
    [preMiddleware], [postMiddleware], [headersMiddleware]) together with
    the parts of the JavaScript platform these functions call:
    [String.prototype.replace] / [replaceAll] / [includes], the Fetch
    [Headers] object and the WHATWG [URL] object.

    Strings are sequences of 8-bit code units (HTTP header values are
    byte strings).  A JavaScript exception is the [Thrown] outcome. *)

From Stdlib Require Import String Ascii List Bool Arith NArith Lia.
Import ListNotations.
Local Open Scope string_scope.
Local Open Scope bool_scope.

(** ** Outcomes: a value or a thrown exception *)

Inductive outcome (A : Type) : Type :=
| Returned (a : A)
| Thrown (e : string).
Arguments Returned {A} a.
Arguments Thrown {A} e.

Definition bind {A B : Type} (m : outcome A) (k : A -> outcome B) : outcome B :=
  match m with
  | Returned a => k a
  | Thrown e => Thrown e
  end.

Notation "x <- m ;; k" := (bind m (fun x => k))
  (at level 61, m at next level, right associativity).

(** [new URL(..)] throws a [TypeError]; so does a property read on
    [undefined]. *)
Definition TypeError : string := "TypeError".

Definition of_option {A : Type} (o : option A) : outcome A :=
  match o with
  | Some a => Returned a
  | None => Thrown TypeError
  end.

(** ** JavaScript strings *)

Module JS.

Definition dollar : ascii := ascii_of_nat 36.
Definition dquote : string := String (ascii_of_nat 34) EmptyString.

(** [s.startsWith(p)] *)
Definition startsWith (s p : string) : bool := prefix p s.

(** [s.includes(sub)] *)
Fixpoint includes (s sub : string) : bool :=
  prefix sub s ||
  match s with
  | EmptyString => false
  | String _ s' => includes s' sub
  end.

(** the characters of [s] from index [n] on *)
Fixpoint drop (n : nat) (s : string) : string :=
  match n, s with
  | O, _ => s
  | S _, EmptyString => EmptyString
  | S k, String _ s' => drop k s'
  end.

Definition snoc (s : string) (c : ascii) : string := s ++ String c EmptyString.

Definition lower_ascii (c : ascii) : ascii :=
  let n := nat_of_ascii c in
  if ((65 <=? n) && (n <=? 90))%nat then ascii_of_nat (n + 32) else c.

Fixpoint toLowerASCII (s : string) : string :=
  match s with
  | EmptyString => EmptyString
  | String c s' => String (lower_ascii c) (toLowerASCII s')
  end.

(** GetSubstitution of ECMA-262 for a match without capture groups:
    [$$] is a dollar, [$&] the match, [$`] the text before the match,
    [$'] the text after it; every other character, and every other use
    of the dollar sign, stands for itself. *)
Fixpoint GetSubstitution (matched before after template : string) : string :=
  match template with
  | EmptyString => EmptyString
  | String c t =>
      if Ascii.eqb c dollar then
        match t with
        | EmptyString => String c EmptyString
        | String d t' =>
            if Ascii.eqb d dollar then
              String dollar (GetSubstitution matched before after t')
            else if Ascii.eqb d "&" then
              matched ++ GetSubstitution matched before after t'
            else if Ascii.eqb d "`" then
              before ++ GetSubstitution matched before after t'
            else if Ascii.eqb d "'" then
              after ++ GetSubstitution matched before after t'
            else String c (GetSubstitution matched before after t)
        end
      else String c (GetSubstitution matched before after t)
  end.

(** [s.replaceAll(pat, repl)] with a string pattern.  [before] holds the
    characters already passed, [skip] the number of characters of the
    current match still to be passed over.  An empty pattern matches
    before every character and at the end. *)
Fixpoint replaceAll_from (pat repl before s : string) (skip : nat)
  {struct s} : string :=
  match skip with
  | S k =>
      match s with
      | EmptyString => EmptyString
      | String c s' => replaceAll_from pat repl (snoc before c) s' k
      end
  | O =>
      if prefix pat s then
        GetSubstitution pat before (drop (String.length pat) s) repl ++
        match s with
        | EmptyString => EmptyString
        | String c s' =>
            match pat with
            | EmptyString =>
                String c (replaceAll_from pat repl (snoc before c) s' 0)
            | String _ p' =>
                replaceAll_from pat repl (snoc before c) s' (String.length p')
            end
        end
      else
        match s with
        | EmptyString => EmptyString
        | String c s' =>
            String c (replaceAll_from pat repl (snoc before c) s' 0)
        end
  end.

Definition replaceAll (s pat repl : string) : string :=
  replaceAll_from pat repl EmptyString s 0.

(** The class [\s] on 8-bit code units: TAB, LF, VT, FF, CR, SPACE and
    NBSP. *)
Definition is_space (c : ascii) : bool :=
  let n := nat_of_ascii c in
  (((9 <=? n) && (n <=? 13)) || (n =? 32) || (n =? 160))%nat.

Fixpoint skip_spaces (s : string) : string * string :=
  match s with
  | EmptyString => (EmptyString, EmptyString)
  | String c s' =>
      if is_space c then
        let '(sp, r) := skip_spaces s' in (String c sp, r)
      else (EmptyString, s)
  end.

(** the longest prefix without [;], and what follows it *)
Fixpoint span_not_semi (s : string) : string * string :=
  match s with
  | EmptyString => (EmptyString, EmptyString)
  | String c s' =>
      if Ascii.eqb c ";" then (EmptyString, s)
      else let '(v, r) := span_not_semi s' in (String c v, r)
  end.

(** case-insensitive match of a lower-case literal at the head of [s];
    returns the characters matched and the rest *)
Fixpoint match_literal_i (lit s : string) : option (string * string) :=
  match lit with
  | EmptyString => Some (EmptyString, s)
  | String l lit' =>
      match s with
      | EmptyString => None
      | String c s' =>
          if Ascii.eqb (lower_ascii c) l then
            match match_literal_i lit' s' with
            | Some (m, r) => Some (String c m, r)
            | None => None
            end
          else None
      end
  end.

(** One match of [/;\s*Domain=[^;]+/i] anchored at the head of [s]: the
    text matched and the text after it.  [\s*] and [[^;]+] are greedy
    and no shorter choice can succeed, since [D] is not a space and
    nothing follows [[^;]+] in the pattern. *)
Definition match_domain_attr (s : string) : option (string * string) :=
  match s with
  | String c s1 =>
      if Ascii.eqb c ";" then
        let '(sp, s2) := skip_spaces s1 in
        match match_literal_i "domain=" s2 with
        | Some (lit, s3) =>
            match span_not_semi s3 with
            | (EmptyString, _) => None
            | (v, rest) => Some (String c (sp ++ lit ++ v), rest)
            end
        | None => None
        end
      else None
  | EmptyString => None
  end.

(** [s.replace(/;\s*Domain=[^;]+/i, repl)]: the leftmost match only. *)
Fixpoint replace_domain_from (repl before s : string) : string :=
  match match_domain_attr s with
  | Some (m, rest) => GetSubstitution m before rest repl ++ rest
  | None =>
      match s with
      | EmptyString => EmptyString
      | String c s' => String c (replace_domain_from repl (snoc before c) s')
      end
  end.

Definition replace_domain (s repl : string) : string :=
  replace_domain_from repl EmptyString s.

(** [s.replace(/;\s*Domain=[^;]+/gi, repl)]: every match, left to
    right, the search resuming after each match. *)
Fixpoint replace_domain_g_from (repl before s : string) (skip : nat)
  {struct s} : string :=
  match s with
  | EmptyString => EmptyString
  | String c s' =>
      match skip with
      | S k => replace_domain_g_from repl (snoc before c) s' k
      | O =>
          match match_domain_attr s with
          | Some (m, rest) =>
              GetSubstitution m before rest repl ++
              replace_domain_g_from repl (snoc before c) s' (String.length m - 1)
          | None =>
              String c (replace_domain_g_from repl (snoc before c) s' 0)
          end
      end
  end.

Definition replace_domain_g (s repl : string) : string :=
  replace_domain_g_from repl EmptyString s 0.

(** [s.replace(/^www\./, '')] *)
Definition strip_www (s : string) : string :=
  if prefix "www." s then drop 4 s else s.

(** [!s.match(/^https?:\/\//)] negated: does [s] start with a scheme *)
Definition has_http_scheme (s : string) : bool :=
  prefix "http://" s || prefix "https://" s.

End JS.

(** ** The Fetch [Headers] object

    A header list in insertion order; names compare without regard to
    ASCII case.  Values are stored as given: the models of [set] and
    [append] do not strip surrounding white space and do not reject
    values holding NUL, CR or LF. *)

Definition Headers : Type := list (string * string).

Module Hdr.

Definition same_name (a b : string) : bool :=
  String.eqb (JS.toLowerASCII a) (JS.toLowerASCII b).

Definition values (h : Headers) (name : string) : list string :=
  map snd (filter (fun p => same_name (fst p) name) h).

Fixpoint join (sep : string) (l : list string) : string :=
  match l with
  | [] => EmptyString
  | [x] => x
  | x :: r => x ++ sep ++ join sep r
  end.

(** [h.get(name)]: the values of all headers of that name joined by a
    comma and a space, [null] when there is none. *)
Definition get (h : Headers) (name : string) : option string :=
  match values h name with
  | [] => None
  | vs => Some (join ", " vs)
  end.

(** [h.delete(name)] *)
Definition delete (h : Headers) (name : string) : Headers :=
  filter (fun p => negb (same_name (fst p) name)) h.

(** [h.append(name, value)] *)
Definition append (h : Headers) (name value : string) : Headers :=
  (h ++ [(name, value)])%list.

(** [h.set(name, value)]: the first header of that name takes the value
    and the others go; with none, the header is appended. *)
Fixpoint set (h : Headers) (name value : string) : Headers :=
  match h with
  | [] => [(name, value)]
  | p :: r =>
      if same_name (fst p) name then (fst p, value) :: delete r name
      else p :: set r name value
  end.

(** [h.getSetCookie()] *)
Definition getSetCookie (h : Headers) : list string := values h "Set-Cookie".

End Hdr.

(** ** The WHATWG [URL] object

    The record holds the slots of a URL record; the getters and setters
    below are those of the [URL] class that the middleware uses.  A
    null host, port, query or fragment is [None]. *)

Record URL : Type := mkURL {
  url_scheme : string;
  url_username : string;
  url_password : string;
  url_host : option string;
  url_port : option string;
  url_path : string;
  url_opaque_path : bool;
  url_query : option string;
  url_fragment : option string
}.

Definition is_special (scheme : string) : bool :=
  existsb (String.eqb scheme) ["http"; "https"; "ws"; "wss"; "ftp"; "file"].

Definition default_port (scheme : string) : option string :=
  if String.eqb scheme "http" then Some "80"
  else if String.eqb scheme "https" then Some "443"
  else if String.eqb scheme "ws" then Some "80"
  else if String.eqb scheme "wss" then Some "443"
  else if String.eqb scheme "ftp" then Some "21"
  else None.

Definition protocol (u : URL) : string := url_scheme u ++ ":".

Definition hostname (u : URL) : string :=
  match url_host u with
  | Some h => h
  | None => EmptyString
  end.

Definition port (u : URL) : string :=
  match url_port u with
  | Some p => p
  | None => EmptyString
  end.

Definition host (u : URL) : string :=
  match url_host u with
  | None => EmptyString
  | Some h =>
      match url_port u with
      | None => h
      | Some p => h ++ ":" ++ p
      end
  end.

Definition pathname (u : URL) : string := url_path u.

Definition search (u : URL) : string :=
  match url_query u with
  | None => EmptyString
  | Some EmptyString => EmptyString
  | Some q => "?" ++ q
  end.

Definition hash (u : URL) : string :=
  match url_fragment u with
  | None => EmptyString
  | Some EmptyString => EmptyString
  | Some f => "#" ++ f
  end.

(** the URL serializer: [u.href], [u.toString()] *)
Definition toString (u : URL) : string :=
  protocol u ++
  match url_host u with
  | Some h =>
      "//" ++
      (if String.eqb (url_username u) EmptyString
          && String.eqb (url_password u) EmptyString
       then EmptyString
       else url_username u ++
            (if String.eqb (url_password u) EmptyString then EmptyString
             else ":" ++ url_password u) ++ "@") ++
      host u
  | None =>
      if negb (url_opaque_path u) && prefix "//" (url_path u)
      then "/." else EmptyString
  end ++
  url_path u ++
  match url_query u with
  | Some q => "?" ++ q
  | None => EmptyString
  end ++
  match url_fragment u with
  | Some f => "#" ++ f
  | None => EmptyString
  end.

(** *** Ports *)

Definition is_digit (c : ascii) : bool :=
  let n := nat_of_ascii c in ((48 <=? n) && (n <=? 57))%nat.

Fixpoint span (p : ascii -> bool) (s : string) : string * string :=
  match s with
  | EmptyString => (EmptyString, EmptyString)
  | String c s' =>
      if p c then let '(a, b) := span p s' in (String c a, b)
      else (EmptyString, s)
  end.

Fixpoint digits_to_N (s : string) (acc : N) : N :=
  match s with
  | EmptyString => acc
  | String c s' => digits_to_N s' (acc * 10 + N.of_nat (nat_of_ascii c - 48))%N
  end.

Fixpoint strip_zeros (s : string) : string :=
  match s with
  | String c s' =>
      if Ascii.eqb c "0" then
        match s' with
        | EmptyString => s
        | _ => strip_zeros s'
        end
      else s
  | EmptyString => s
  end.

(** The port state on a string of digits: [None] is failure (a port
    above 65535), [Some None] the null port (no digits, or the default
    port of the scheme). *)
Definition parse_port (scheme digits : string) : option (option string) :=
  match digits with
  | EmptyString => Some None
  | _ =>
      if (65535 <? digits_to_N digits 0)%N then None
      else
        let p := strip_zeros digits in
        match default_port scheme with
        | Some d => if String.eqb d p then Some None else Some (Some p)
        | None => Some (Some p)
        end
  end.

(** *** Setters

    The setters re-parse the value given in the state of the component.
    The models keep the delimiter handling of those states and leave
    out percent-encoding and host validation: the middleware only ever
    assigns a component read from another parsed URL. *)

Definition is_host_end (special : bool) (c : ascii) : bool :=
  Ascii.eqb c "/" || Ascii.eqb c "?" || Ascii.eqb c "#"
  || (special && Ascii.eqb c "\").

(** the host state: the buffer up to the first [:] outside square
    brackets or the first [/], [?], [#] (and [\] in a special URL) *)
Fixpoint span_host (special inside : bool) (s : string) : string * string :=
  match s with
  | EmptyString => (EmptyString, EmptyString)
  | String c s' =>
      if (Ascii.eqb c ":" && negb inside) || is_host_end special c
      then (EmptyString, s)
      else
        let inside' :=
          if Ascii.eqb c "[" then true
          else if Ascii.eqb c "]" then false else inside in
        let '(a, b) := span_host special inside' s' in (String c a, b)
  end.

Definition host_case (special : bool) (h : string) : string :=
  if special then JS.toLowerASCII h else h.

(** [u.hostname = v] *)
Definition set_hostname (u : URL) (v : string) : URL :=
  if url_opaque_path u then u
  else
    let sp := is_special (url_scheme u) in
    let '(h, rest) := span_host sp false v in
    if prefix ":" rest then u
    else if sp && String.eqb h EmptyString then u
    else if String.eqb h EmptyString
            && (negb (String.eqb (url_username u) EmptyString)
                || negb (String.eqb (url_password u) EmptyString)
                || match url_port u with Some _ => true | None => false end)
    then u
    else mkURL (url_scheme u) (url_username u) (url_password u)
               (Some (host_case sp h)) (url_port u) (url_path u)
               (url_opaque_path u) (url_query u) (url_fragment u).

(** [u.host = v] *)
Definition set_host (u : URL) (v : string) : URL :=
  if url_opaque_path u then u
  else
    let sp := is_special (url_scheme u) in
    let '(h, rest) := span_host sp false v in
    match rest with
    | String ":" after =>
        if String.eqb h EmptyString then u
        else
          let with_host p :=
            mkURL (url_scheme u) (url_username u) (url_password u)
                  (Some (host_case sp h)) p (url_path u)
                  (url_opaque_path u) (url_query u) (url_fragment u) in
          let '(digits, _) := span is_digit after in
          match digits with
          | EmptyString => with_host (url_port u)
          | _ =>
              match parse_port (url_scheme u) digits with
              | Some p => with_host p
              | None => with_host (url_port u)
              end
          end
    | _ => set_hostname u v
    end.

(** [u.pathname = v] *)
Definition set_pathname (u : URL) (v : string) : URL :=
  if url_opaque_path u then u
  else
    let p :=
      match v with
      | EmptyString =>
          if is_special (url_scheme u) then "/" else EmptyString
      | String c _ =>
          if Ascii.eqb c "/" then v else "/" ++ v
      end in
    mkURL (url_scheme u) (url_username u) (url_password u)
          (url_host u) (url_port u) p
          (url_opaque_path u) (url_query u) (url_fragment u).

(** [u.search = v] *)
Definition set_search (u : URL) (v : string) : URL :=
  let q :=
    match v with
    | EmptyString => None
    | String c r => if Ascii.eqb c "?" then Some r else Some v
    end in
  mkURL (url_scheme u) (url_username u) (url_password u)
        (url_host u) (url_port u) (url_path u)
        (url_opaque_path u) q (url_fragment u).

(** ** The request context of a middleware

    [c.env] (the bindings), [c.req] (the request URL and headers), the
    context variables of [routeFactory] ([c.get] / [c.set]; a variable
    never set is [undefined], here [None]) and [c.res]. *)

Record Env : Type := mkEnv {
  ALIAS_DOMAIN : string;
  TARGET_DOMAIN : string;
  ENVIRONMENT : string
}.

Record Response : Type := mkResponse {
  status : nat;
  headers : Headers;
  body : string
}.

Record Context : Type := mkContext {
  env : Env;
  req_url : string;
  req_headers : Headers;
  requestURL : option URL;
  targetURL : option URL;
  forwardHeaders : option Headers;
  res : Response
}.

Definition with_res (c : Context) (r : Response) : Context :=
  mkContext (env c) (req_url c) (req_headers c)
            (requestURL c) (targetURL c) (forwardHeaders c) r.

Definition with_headers (c : Context) (h : Headers) : Context :=
  with_res c (mkResponse (status (res c)) h (body (res c))).

(** [c.set('requestURL', u)], [c.set('targetURL', u)],
    [c.set('forwardHeaders', h)] *)
Definition set_requestURL (c : Context) (u : URL) : Context :=
  mkContext (env c) (req_url c) (req_headers c)
            (Some u) (targetURL c) (forwardHeaders c) (res c).

Definition set_targetURL (c : Context) (u : URL) : Context :=
  mkContext (env c) (req_url c) (req_headers c)
            (requestURL c) (Some u) (forwardHeaders c) (res c).

Definition set_forwardHeaders (c : Context) (h : Headers) : Context :=
  mkContext (env c) (req_url c) (req_headers c)
            (requestURL c) (targetURL c) (Some h) (res c).

(** [c.header(name, value)] *)
Definition c_header (c : Context) (name value : string) : Context :=
  with_headers c (Hdr.set (headers (res c)) name value).

(** [c.text(text, status)]: the response a middleware returns in place
    of calling [next] *)
Definition c_text (c : Context) (text : string) (st : nat) : Context :=
  with_res c
    (mkResponse st
       (Hdr.set (headers (res c)) "Content-Type" "text/plain; charset=UTF-8")
       text).

(** [next]: the rest of the chain, run on the context as it stands *)
Definition Next : Type := Context -> outcome Context.

(** ** src/middleware.ts *)

(** const eqHost = (a, b) =>
      a.replace(/^www\./, '') === b.replace(/^www\./, '') *)
Definition eqHost (a b : string) : bool :=
  String.eqb (JS.strip_www a) (JS.strip_www b).

(** the first match of [Domain=] in one cookie (line 85) and every match
    (line 93), with the replacement text of the source *)
Definition cookie_domain_replacement (target_domain : string) : string :=
  "; Domain=" ++ target_domain.

Section Middleware.

(** [new URL(input)] and [new URL(input, base)] of the platform; [None]
    is the [TypeError] it throws. *)
Variable new_URL : string -> option string -> option URL.

Definition normailzeUrl (url : URL + string) : outcome URL :=
  url' <- match url with
          | inr s =>
              (* the domains might not have a protocol *)
              let s' := if negb (JS.has_http_scheme s)
                        then "https://" ++ s else s in
              of_option (new_URL s' None)
          | inl u => Returned u
          end ;;
  normalized <- of_option (new_URL (toString url') None) ;;
  Returned (set_host normalized (host url')).

(** The three [console.log] calls before [next] leave the context as it
    is and are not modelled. *)
Definition preMiddleware (c : Context) (next : Next) : outcome Context :=
  reqUrl <- of_option (new_URL (req_url c) None) ;;
  aliasDomain <- normailzeUrl (inr (ALIAS_DOMAIN (env c))) ;;
  targetURL0 <- normailzeUrl (inr (TARGET_DOMAIN (env c))) ;;
  if negb (String.eqb (hostname reqUrl) (hostname aliasDomain)) then
    Returned (c_text c "Not allowed" 403)
  else
    let c1 := set_requestURL c reqUrl in
    let targetURL1 := set_pathname targetURL0 (pathname reqUrl) in
    let targetURL2 := set_search targetURL1 (search reqUrl) in
    next (set_targetURL c1 targetURL2).

(** 1) Rewrite redirect Location *)
Definition post_location (aliasHostname : string) (h : Headers) : Headers :=
  match Hdr.get h "Location" with
  | Some (String _ _ as loc) =>
      match new_URL loc (Some ("https://" ++ aliasHostname)) with
      | Some targetLoc =>
          if eqHost (hostname targetLoc) aliasHostname then
            Hdr.set h "Location"
              (toString (set_hostname targetLoc aliasHostname))
          else h
      | None => h
      end
  | _ => h
  end.

(** 2) Rewrite Set-Cookie Domain *)
Definition post_set_cookie (target_domain : string) (h : Headers) : Headers :=
  match Hdr.getSetCookie h with
  | (_ :: _) as getAll =>
      fold_left
        (fun acc cki =>
           Hdr.append acc "Set-Cookie"
             (JS.replace_domain cki (cookie_domain_replacement target_domain)))
        getAll (Hdr.delete h "Set-Cookie")
  | [] =>
      match Hdr.get h "Set-Cookie" with
      | Some (String _ _ as one) =>
          Hdr.set h "Set-Cookie"
            (JS.replace_domain_g one (cookie_domain_replacement target_domain))
      | _ => h
      end
  end.

(** 3) patch CSP that hard-codes origin *)
Definition post_csp (target_domain : string) (h : Headers) : Headers :=
  match Hdr.get h "Content-Security-Policy" with
  | Some csp =>
      if JS.includes csp target_domain then
        Hdr.set h "Content-Security-Policy"
          (JS.replaceAll csp target_domain target_domain)
      else h
  | None => h
  end.

Definition postMiddleware (c : Context) (next : Next) : outcome Context :=
  c1 <- next c ;;
  let _headers := headers (res c1) in
  t <- of_option (targetURL c1) ;;
  let aliasHostname := hostname t in
  let h1 := post_location aliasHostname _headers in
  let h2 := post_set_cookie (TARGET_DOMAIN (env c1)) h1 in
  let h3 := post_csp (TARGET_DOMAIN (env c1)) h2 in
  Returned (with_headers c1 (Hdr.delete h3 "Strict-Transport-Security")).

Definition headersMiddleware (c : Context) (next : Next) : outcome Context :=
  c1 <- next (c_header c "X-Robots-Tag"
                "noindex, nofollow, noarchive, nosnippet") ;;
  reqUrl <- of_option (new_URL (req_url c1) None) ;;
  let hdr := req_headers c1 in
  let hdr := Hdr.set hdr "X-Forwarded-Host" (host reqUrl) in
  let hdr := Hdr.set hdr "X-Forwarded-Proto" "https" in
  let hdr := Hdr.delete hdr "Accept-Encoding" in
  let c2 := set_forwardHeaders c1 hdr in
  match Hdr.get (req_headers c2) "content-type" with
  | Some contentType =>
      if JS.includes contentType "text/html" then
        maskedURL <- of_option (new_URL (TARGET_DOMAIN (env c2)) None) ;;
        u1 <- of_option (new_URL (req_url c2) None) ;;
        let maskedURL := set_pathname maskedURL (pathname u1) in
        u2 <- of_option (new_URL (req_url c2) None) ;;
        let maskedURL := set_search maskedURL (search u2) in
        Returned
          (c_header c2 "Link"
             ("<" ++ toString maskedURL ++ ">; rel="
                  ++ JS.dquote ++ "canonical" ++ JS.dquote))
      else Returned c2
  | None => Returned c2
  end.

(** ** src/transform-url.ts *)

(** [strip_suffix suf s]: what precedes [suf] in [s] when [s] ends with
    [suf] *)
Fixpoint strip_suffix (suf s : string) : option string :=
  if String.eqb s suf then Some EmptyString
  else
    match s with
    | EmptyString => None
    | String c s' =>
        match strip_suffix suf s' with
        | Some p => Some (String c p)
        | None => None
        end
    end.

(** Modelled from the spec: the resolution step of [convertToMaskedURL]
    in src/transform-url.ts, of which only the unit tests are at hand.
    The forms resolved against [maskedURL] are the protocol-relative
    ([//host/...]) and the relative ([/path]) ones of the data model;
    any other string has to be an absolute URL by itself, so that a bare
    word is malformed: the unit test 'should handle malformed URLs
    gracefully' has [not-a-valid-url] returned as it is. *)
Definition resolve_reference (originalUrl : string) (maskedURL : URL)
  : option URL :=
  if JS.startsWith originalUrl "/"
  then new_URL originalUrl (Some (toString maskedURL))
  else new_URL originalUrl None.

(** Modelled from the spec: [convertToMaskedURL] of src/transform-url.ts,
    of which only the unit tests are at hand.  The steps are those of the
    URL coordinate transform: a [data:] URI is returned as it is; the
    string is resolved, a failure returning it as it is; so does a
    scheme other than http and https, and a host that is neither the
    masked host nor below it.  Otherwise the result is the scheme, host
    and port of [requestURL] followed by the resolved path, search and
    hash; the labels of a subdomain stay in front of the request host
    (api.target maps to api.alias, as in the unit test 'should handle
    URLs with subdomains'). *)
Definition convertToMaskedURL (originalUrl : string)
    (maskedURL requestURL : URL) : string :=
  if JS.startsWith originalUrl "data:" then originalUrl
  else
    match resolve_reference originalUrl maskedURL with
    | None => originalUrl
    | Some u =>
        if negb (String.eqb (protocol u) "http:"
                 || String.eqb (protocol u) "https:")
        then originalUrl
        else if String.eqb (hostname u) (hostname maskedURL) then
          protocol requestURL ++ "//" ++ host requestURL
            ++ pathname u ++ search u ++ hash u
        else
          match strip_suffix ("." ++ hostname maskedURL) (hostname u) with
          | Some sub =>
              protocol requestURL ++ "//" ++ sub ++ "." ++ host requestURL
                ++ pathname u ++ search u ++ hash u
          | None => originalUrl
          end
    end.

End Middleware.

(** ** A URL parser

    An executable reading of the WHATWG basic URL parser, to run the
    middleware on concrete requests.  It covers schemes, authorities
    (credentials, host, port, default ports), absolute and relative
    references, dot segments, queries, fragments and percent-encoding of
    8-bit code units.  Left out: IDNA and percent-decoding of hosts,
    IPv4 and IPv6 normalisation, Windows drive letters. *)

Module Whatwg.

Definition code (c : ascii) : nat := nat_of_ascii c.

Definition is_alpha (c : ascii) : bool :=
  let n := code (JS.lower_ascii c) in ((97 <=? n) && (n <=? 122))%nat.

Definition is_scheme_char (c : ascii) : bool :=
  is_alpha c || is_digit c
  || Ascii.eqb c "+" || Ascii.eqb c "-" || Ascii.eqb c ".".

Definition is_c0_or_space (c : ascii) : bool := (code c <=? 32)%nat.

Definition is_tab_or_newline (c : ascii) : bool :=
  let n := code c in ((n =? 9) || (n =? 10) || (n =? 13))%nat.

Fixpoint filter_string (p : ascii -> bool) (s : string) : string :=
  match s with
  | EmptyString => EmptyString
  | String c s' =>
      if p c then String c (filter_string p s') else filter_string p s'
  end.

Fixpoint rev_string (s acc : string) : string :=
  match s with
  | EmptyString => acc
  | String c s' => rev_string s' (String c acc)
  end.

Definition drop_while (p : ascii -> bool) (s : string) : string :=
  snd (span p s).

(** leading and trailing C0 controls and spaces go, then every tab and
    newline *)
Definition clean (s : string) : string :=
  let s1 := drop_while is_c0_or_space s in
  let s2 := rev_string (drop_while is_c0_or_space
                          (rev_string s1 EmptyString)) EmptyString in
  filter_string (fun c => negb (is_tab_or_newline c)) s2.

(** [cut c s]: [s] up to the first [c], and what follows that [c] *)
Definition cut (d : ascii) (s : string) : string * option string :=
  let '(a, b) := span (fun c => negb (Ascii.eqb c d)) s in
  match b with
  | EmptyString => (a, None)
  | String _ r => (a, Some r)
  end.

(** [cut_last c s]: what precedes the last [c] of [s], and what follows *)
Definition cut_last (d : ascii) (s : string) : option string * string :=
  match cut d (rev_string s EmptyString) with
  | (a, None) => (None, s)
  | (a, Some b) => (Some (rev_string b EmptyString), rev_string a EmptyString)
  end.

(** *** Percent-encoding *)

Definition hex_digit (n : nat) : ascii :=
  if (n <? 10)%nat then ascii_of_nat (48 + n) else ascii_of_nat (55 + n).

Definition percent_encode (inset : ascii -> bool) : string -> string :=
  fix go (s : string) : string :=
    match s with
    | EmptyString => EmptyString
    | String c s' =>
        if inset c then
          String "%" (String (hex_digit (code c / 16))
                        (String (hex_digit (code c mod 16)) (go s')))
        else String c (go s')
    end.

Definition in_c0_control_set (c : ascii) : bool :=
  ((code c <? 32) || (126 <? code c))%nat.

Definition one_of (l : list nat) (c : ascii) : bool :=
  existsb (Nat.eqb (code c)) l.

Definition in_fragment_set (c : ascii) : bool :=
  in_c0_control_set c || one_of [32; 34; 60; 62; 96] c.

Definition in_query_set (special : bool) (c : ascii) : bool :=
  in_c0_control_set c || one_of [32; 34; 35; 60; 62] c
  || (special && one_of [39] c).

Definition in_path_set (c : ascii) : bool :=
  in_query_set false c || one_of [63; 94; 96; 123; 125] c.

Definition in_userinfo_set (c : ascii) : bool :=
  in_path_set c || one_of [47; 58; 59; 61; 64; 91; 92; 93; 124] c.

Definition forbidden_host (c : ascii) : bool :=
  one_of [0; 9; 10; 13; 32; 35; 47; 58; 60; 62; 63; 64; 91; 92; 93; 94; 124] c.

Definition forbidden_domain (c : ascii) : bool :=
  forbidden_host c || (code c <? 32)%nat || one_of [37; 127] c.

Definition string_exists (p : ascii -> bool) (s : string) : bool :=
  negb (String.eqb (filter_string p s) EmptyString).

(** *** Paths *)

Definition is_sep (special : bool) (c : ascii) : bool :=
  Ascii.eqb c "/" || (special && Ascii.eqb c "\").

Fixpoint split_on (p : ascii -> bool) (s : string) : list string :=
  match s with
  | EmptyString => [EmptyString]
  | String c s' =>
      if p c then EmptyString :: split_on p s'
      else
        match split_on p s' with
        | x :: r => String c x :: r
        | [] => [String c EmptyString]
        end
  end.

Definition is_single_dot (seg : string) : bool :=
  let l := JS.toLowerASCII seg in
  String.eqb l "." || String.eqb l "%2e".

Definition is_double_dot (seg : string) : bool :=
  let l := JS.toLowerASCII seg in
  String.eqb l ".." || String.eqb l ".%2e"
  || String.eqb l "%2e." || String.eqb l "%2e%2e".

(** the path state, segment by segment; [acc] is the path so far, last
    segment first *)
Fixpoint path_state (acc segs : list string) : list string :=
  match segs with
  | [] => rev acc
  | seg :: rest =>
      let last := match rest with [] => true | _ => false end in
      if is_double_dot seg then
        path_state (if last then EmptyString :: tl acc else tl acc) rest
      else if is_single_dot seg then
        path_state (if last then EmptyString :: acc else acc) rest
      else path_state (percent_encode in_path_set seg :: acc) rest
  end.

Definition serialize_path (segs : list string) : string :=
  fold_right (fun seg r => "/" ++ seg ++ r) EmptyString segs.

(** the segments of a serialized path *)
Definition segments_of (path : string) : list string :=
  match path with
  | EmptyString => []
  | String _ r => split_on (fun c => Ascii.eqb c "/") r
  end.

(** a path that starts at the root: [s] begins with a separator *)
Definition absolute_path (special : bool) (s : string) : string :=
  serialize_path (path_state [] (split_on (is_sep special) (JS.drop 1 s))).

(** *** Authority *)

Definition parse_host (scheme h : string) : option string :=
  let sp := is_special scheme in
  if prefix "[" h then
    if prefix "]" (rev_string h EmptyString)
    then Some (JS.toLowerASCII h) else None
  else if sp then
    if String.eqb h EmptyString && negb (String.eqb scheme "file") then None
    else if string_exists forbidden_domain h then None
    else Some (JS.toLowerASCII h)
  else if string_exists forbidden_host h then None
  else Some (percent_encode in_c0_control_set h).

(** the authority, then the path, of a URL of scheme [scheme]; [s] holds
    neither query nor fragment *)
Definition authority_and_path (scheme s : string)
    (q f : option string) : option URL :=
  let sp := is_special scheme in
  let '(auth, pathpart) := span (fun c => negb (is_sep sp c)) s in
  let '(userinfo, hostport) := cut_last "@" auth in
  let '(user, pass) :=
    match userinfo with
    | None => (EmptyString, EmptyString)
    | Some ui =>
        match cut ":" ui with
        | (u, None) => (percent_encode in_userinfo_set u, EmptyString)
        | (u, Some p) =>
            (percent_encode in_userinfo_set u,
             percent_encode in_userinfo_set p)
        end
    end in
  let '(h, rest) := span_host sp false hostport in
  match rest with
  | String _ _ =>
      if String.eqb h EmptyString then None
      else
        let digits := JS.drop 1 rest in
        if String.eqb (filter_string is_digit digits) digits then
          match parse_host scheme h, parse_port scheme digits with
          | Some h', Some p =>
              Some (mkURL scheme user pass (Some h') p
                          (match pathpart with
                           | EmptyString => if sp then "/" else EmptyString
                           | _ => absolute_path sp pathpart
                           end) false q f)
          | _, _ => None
          end
        else None
  | EmptyString =>
      match parse_host scheme h with
      | Some h' =>
          if String.eqb h' EmptyString
             && (negb (String.eqb user EmptyString)
                 || negb (String.eqb pass EmptyString))
          then None
          else
            Some (mkURL scheme user pass (Some h') None
                        (match pathpart with
                         | EmptyString => if sp then "/" else EmptyString
                         | _ => absolute_path sp pathpart
                         end) false q f)
      | None => None
      end
  end.

(** *** Scheme, and references relative to a base *)

Definition split_scheme (s : string) : option (string * string) :=
  let '(a, b) := span is_scheme_char s in
  match a, b with
  | String c _, String d r =>
      if is_alpha c && Ascii.eqb d ":" then Some (JS.toLowerASCII a, r)
      else None
  | _, _ => None
  end.

(** the relative state: [s] is resolved against [base], whose scheme it
    takes *)
Definition relative (base : URL) (s : string)
    (q f : option string) : option URL :=
  let scheme := url_scheme base in
  let sp := is_special scheme in
  let on_base path query :=
    Some (mkURL scheme (url_username base) (url_password base)
                (url_host base) (url_port base) path false query f) in
  match s with
  | EmptyString =>
      on_base (url_path base)
              (match q with Some _ => q | None => url_query base end)
  | String c1 r1 =>
      if is_sep sp c1 then
        match r1 with
        | String c2 r2 =>
            if is_sep sp c2 then
              authority_and_path scheme
                (if sp then drop_while (is_sep sp) r2 else r2) q f
            else on_base (absolute_path sp s) q
        | EmptyString => on_base (absolute_path sp s) q
        end
      else
        on_base
          (serialize_path
             (path_state (tl (rev (segments_of (url_path base))))
                         (split_on (is_sep sp) s)))
          q
  end.

(** the basic URL parser on [input] with an optional base URL *)
Definition basic_parse (input : string) (base : option URL) : option URL :=
  let s0 := clean input in
  let '(s1, f0) := cut "#" s0 in
  let '(s2, q0) := cut "?" s1 in
  let f := option_map (percent_encode in_fragment_set) f0 in
  match split_scheme s2 with
  | Some (scheme, r) =>
      let sp := is_special scheme in
      let q := option_map (percent_encode (in_query_set sp)) q0 in
      if sp then
        match base with
        | Some b =>
            if String.eqb (url_scheme b) scheme && negb (prefix "//" r)
               && negb (url_opaque_path b)
            then relative b r q f
            else authority_and_path scheme (drop_while (is_sep sp) r) q f
        | None => authority_and_path scheme (drop_while (is_sep sp) r) q f
        end
      else if prefix "//" r then authority_and_path scheme (JS.drop 2 r) q f
      else if prefix "/" r then
        Some (mkURL scheme EmptyString EmptyString None None
                    (absolute_path sp r) false q f)
      else
        Some (mkURL scheme EmptyString EmptyString None None
                    (percent_encode in_c0_control_set r) true q f)
  | None =>
      match base with
      | None => None
      | Some b =>
          let q := option_map
                     (percent_encode (in_query_set (is_special (url_scheme b))))
                     q0 in
          if url_opaque_path b then
            match s2, q0, f with
            | EmptyString, None, Some _ =>
                Some (mkURL (url_scheme b) (url_username b) (url_password b)
                            (url_host b) (url_port b) (url_path b) true
                            (url_query b) f)
            | _, _, _ => None
            end
          else relative b s2 q f
      end
  end.

(** [new URL(input)] and [new URL(input, base)] *)
Definition new_URL (input : string) (base : option string) : option URL :=
  match base with
  | None => basic_parse input None
  | Some b =>
      match basic_parse b None with
      | Some bu => basic_parse input (Some bu)
      | None => None
      end
  end.

End Whatwg.

(** ** Requests and handlers of the unit tests (test/unit/middleware.test.ts) *)

Module Fixture.

Definition test_env : Env := mkEnv "test.example.com" "httpbin.org" "test".

Definition full_env : Env :=
  mkEnv "test.example.com" "https://httpbin.org" "test".

(** [app.request(new Request(url, { headers }), env)] *)
Definition request (e : Env) (url : string) (hs : Headers) : Context :=
  mkContext e url hs None None None (mkResponse 200 [] EmptyString).

(** a route handler answering with the given status, headers and body *)
Definition respond (st : nat) (hs : Headers) (b : string) : Next :=
  fun c => Returned (with_res c (mkResponse st hs b)).

(** [app.use(preMiddleware); app.use(postMiddleware); app.get(handler)] *)
Definition pre_post (handler : Next) : Next :=
  fun c =>
    preMiddleware Whatwg.new_URL c
      (fun c1 => postMiddleware Whatwg.new_URL c1 handler).

Definition response_header (o : outcome Context) (name : string)
  : option string :=
  match o with
  | Returned c => Hdr.get (headers (res c)) name
  | Thrown _ => None
  end.

Definition response_cookies (o : outcome Context) : list string :=
  match o with
  | Returned c => Hdr.getSetCookie (headers (res c))
  | Thrown _ => []
  end.

Definition url_of (s : string) : URL :=
  match Whatwg.new_URL s None with
  | Some u => u
  | None => mkURL EmptyString EmptyString EmptyString None None
                  EmptyString true None None
  end.

(** the requests of the tests *)
Definition plain_request (e : Env) : Context :=
  request e "https://test.example.com/test" [].

Definition html_request (e : Env) : Context :=
  request e "https://test.example.com/test" [("content-type", "text/html")].

Definition unauthorized_request : Context :=
  request test_env "https://unauthorized.com/test" [].

(** the development setting of the README: the alias is [localhost],
    the worker listens on port 8787 without TLS *)
Definition local_env : Env :=
  mkEnv "localhost" "https://www.origin-site.com" "development".

Definition local_request : Context :=
  request local_env "http://localhost:8787/page?x=1" [].

(** a context in which [preMiddleware] has stored the target URL *)
Definition gated (c : Context) : Context :=
  set_targetURL c (url_of "https://httpbin.org/test").

(** the handlers of the tests *)
Definition success : Next := respond 200 [] "success".

Definition redirect : Next :=
  respond 302 [("Location", "https://httpbin.org/redirect-target")]
          EmptyString.

Definition hsts_and_csp : Next :=
  respond 200
    [("Content-Security-Policy", "default-src 'self' httpbin.org");
     ("Strict-Transport-Security", "max-age=31536000")]
    "success".

(** a cookie that names its domain twice *)
Definition two_domains : string :=
  "sid=1; Domain=origin.example; Path=/; Domain=cdn.origin.example".

Definition cookie : Next := respond 200 [("Set-Cookie", two_domains)] "success".

(** a target domain whose name holds two dollar signs *)
Definition dollar_env : Env :=
  mkEnv "test.example.com" "shop$$.example" "test".

Definition dollar_csp : Next :=
  respond 200
    [("Content-Security-Policy", "default-src 'self' shop$$.example")]
    "success".

(** the URLs of test/unit/transform-url.test.ts *)
Definition masked_url : URL := url_of "https://httpbin.org".
Definition request_url : URL := url_of "https://example.com".
Definition localhost_request_url : URL := url_of "http://localhost:8787".

End Fixture.

(** ** What the claims say, in the words of the specification *)

(** The canonical link of a request: the request URL with its original
    path, between angle brackets, with [rel="canonical"]. *)
Definition canonical_link_of (u : URL) : string :=
  "<" ++ toString u ++ ">; rel=" ++ JS.dquote ++ "canonical" ++ JS.dquote.

(** [h] is the host [m] or a subdomain of it *)
Definition is_subdomain_of (h m : string) : Prop :=
  exists sub, h = sub ++ "." ++ m.

(** A string references the target domain: it is no [data:] URI and
    resolves to an http or https URL whose host is the masked host or
    below it. *)
Definition references_target
    (new_URL : string -> option string -> option URL)
    (originalUrl : string) (maskedURL : URL) : Prop :=
  JS.startsWith originalUrl "data:" = false /\
  exists u,
    resolve_reference new_URL originalUrl maskedURL = Some u /\
    (protocol u = "http:" \/ protocol u = "https:") /\
    (hostname u = hostname maskedURL
     \/ is_subdomain_of (hostname u) (hostname maskedURL)).

(** the context that [headersMiddleware] hands to the rest of the chain *)
Definition robots (c : Context) : Context :=
  c_header c "X-Robots-Tag" "noindex, nofollow, noarchive, nosnippet".

(** the context after the forwarded headers have been stored *)
Definition forwarded (c1 : Context) (r : URL) : Context :=
  set_forwardHeaders c1
    (Hdr.delete
       (Hdr.set (Hdr.set (req_headers c1) "X-Forwarded-Host" (host r))
                "X-Forwarded-Proto" "https")
       "Accept-Encoding").

(** no dollar sign occurs in [s] *)
Fixpoint no_dollar (s : string) : bool :=
  match s with
  | EmptyString => true
  | String c s' => negb (Ascii.eqb c JS.dollar) && no_dollar s'
  end.

(** ** src/factory.ts *)

(** the [origin] callback that [initApp] gives to [cors]:
    (_origin, c) => c.env.ALIAS_DOMAIN === _origin ? _origin : null *)
Definition cors_origin (origin : string) (c : Context) : option string :=
  if String.eqb (ALIAS_DOMAIN (env c)) origin then Some origin else None.

(** ** Shapes of cookie strings *)

(** every character of [s] is in the class [\s] *)
Fixpoint all_spaces (s : string) : bool :=
  match s with
  | EmptyString => true
  | String c s' => JS.is_space c && all_spaces s'
  end.

(** no [;] occurs in [s] *)
Fixpoint no_semi (s : string) : bool :=
  match s with
  | EmptyString => true
  | String c s' => negb (Ascii.eqb c ";") && no_semi s'
  end.

(** [s] is empty or starts with [;]: an attribute ends here *)
Definition at_attribute_end (s : string) : bool :=
  match s with
  | EmptyString => true
  | String c _ => Ascii.eqb c ";"
  end.

(** ** Shapes of URL strings *)

(** every character of [s] satisfies [p] *)
Fixpoint forall_chars (p : ascii -> bool) (s : string) : bool :=
  match s with
  | EmptyString => true
  | String c s' => p c && forall_chars p s'
  end.

Definition is_lower (c : ascii) : bool :=
  let n := nat_of_ascii c in ((97 <=? n) && (n <=? 122))%nat.

(** a lower-case letter or a dot: the characters of a plain domain name *)
Definition host_char (c : ascii) : bool := is_lower c || Ascii.eqb c ".".

(** a letter, a digit or one of [- . _ ~ = &]: characters that no
    component percent-encodes and that delimit nothing *)
Definition plain_char (c : ascii) : bool :=
  Whatwg.is_alpha c || is_digit c
  || Whatwg.one_of [45; 46; 95; 126; 61; 38] c.

(** the characters of a path: the plain ones and the slash *)
Definition path_char (c : ascii) : bool := plain_char c || Ascii.eqb c "/".

(** no segment of the path [body] is a dot segment *)
Definition no_dot_segments (body : string) : bool :=
  forallb (fun seg => negb (Whatwg.is_single_dot seg)
                      && negb (Whatwg.is_double_dot seg))
          (Whatwg.split_on (fun c => Ascii.eqb c "/") body).

(** a query or a fragment after its delimiter [d], or nothing *)
Definition component (d : string) (o : option string) : string :=
  match o with
  | Some s => d ++ s
  | None => EmptyString
  end.

(** a query or a fragment that is absent, or not empty and plain *)
Definition plain_component (o : option string) : bool :=
  match o with
  | Some s => negb (String.eqb s EmptyString) && forall_chars plain_char s
  | None => true
  end.

(** * Properties *)

(** ** Strings *)

Lemma prefix_app (p s : string) : prefix p (p ++ s) = true.
Proof.
  induction p as [|c p IH]; simpl.
  - now destruct s.
  - destruct (ascii_dec c c); [assumption | congruence].
Qed.

Lemma prefix_split (p s : string) :
  prefix p s = true -> s = p ++ JS.drop (String.length p) s.
Proof.
  revert s; induction p as [|c p IH]; intros s H.
  - reflexivity.
  - destruct s as [|d s]; [discriminate|]. simpl in H.
    destruct (ascii_dec c d) as [->|]; [|discriminate].
    simpl. f_equal. now apply IH.
Qed.

Lemma GetSubstitution_no_dollar (m b a t : string) :
  no_dollar t = true -> JS.GetSubstitution m b a t = t.
Proof.
  induction t as [|c t IH]; simpl; intros H; [reflexivity|].
  apply andb_true_iff in H as [Hc Ht].
  apply negb_true_iff in Hc. rewrite Hc.
  f_equal. now apply IH.
Qed.

(** With a replacement that expands to the pattern, [replaceAll] gives
    the string back: once [skip] characters of a match have been passed,
    the rest comes out as it is. *)
Lemma replaceAll_from_id (pat : string) :
  no_dollar pat = true ->
  forall s before skip,
    JS.replaceAll_from pat pat before s skip = JS.drop skip s.
Proof.
  intros Hpat s.
  induction s as [|c s IH]; intros before skip.
  - destruct skip; [destruct pat|]; reflexivity.
  - destruct skip as [|k]; cbn [JS.replaceAll_from JS.drop].
    + destruct (prefix pat (String c s)) eqn:E.
      * rewrite GetSubstitution_no_dollar by assumption.
        destruct pat as [|d p'].
        -- simpl. now rewrite IH.
        -- rewrite IH.
           apply prefix_split in E. simpl in E.
           injection E as -> E. simpl. now f_equal.
      * now rewrite IH.
    + apply IH.
Qed.

Lemma replaceAll_self (s pat : string) :
  no_dollar pat = true -> JS.replaceAll s pat pat = s.
Proof.
  intros H. unfold JS.replaceAll. now rewrite replaceAll_from_id.
Qed.

Lemma length_app (a b : string) :
  String.length (a ++ b) = String.length a + String.length b.
Proof. induction a; simpl; congruence. Qed.

Lemma strip_suffix_app (suf p : string) :
  strip_suffix suf (p ++ suf) = Some p.
Proof.
  induction p as [|c p IH].
  - simpl. destruct suf; simpl.
    + reflexivity.
    + now rewrite Ascii.eqb_refl, String.eqb_refl.
  - cbn [String.append strip_suffix].
    destruct (String.eqb (String c (p ++ suf)) suf) eqn:E.
    + apply String.eqb_eq in E.
      apply (f_equal String.length) in E. simpl in E.
      rewrite length_app in E. lia.
    + now rewrite IH.
Qed.

Lemma strip_suffix_sound (suf s p : string) :
  strip_suffix suf s = Some p -> s = p ++ suf.
Proof.
  revert p; induction s as [|c s IH]; intros p H.
  - simpl in H. destruct suf; simpl in H; [|discriminate].
    now injection H as <-.
  - cbn [strip_suffix] in H.
    destruct (String.eqb (String c s) suf) eqn:E.
    + apply String.eqb_eq in E. now injection H as <-.
    + destruct (strip_suffix suf s) as [q|]; [|discriminate].
      injection H as <-. simpl. f_equal. now apply IH.
Qed.

(** ** Header lists *)

Lemma same_name_refl (a : string) : Hdr.same_name a a = true.
Proof. apply String.eqb_refl. Qed.

Lemma same_name_other (a b c : string) :
  Hdr.same_name a b = true -> Hdr.same_name b c = false ->
  Hdr.same_name a c = false.
Proof.
  unfold Hdr.same_name. intros H1 H2.
  apply String.eqb_eq in H1. now rewrite H1.
Qed.

Lemma values_delete_same (h : Headers) (n : string) :
  Hdr.values (Hdr.delete h n) n = [].
Proof.
  unfold Hdr.values, Hdr.delete.
  induction h as [|p h IH]; simpl; [reflexivity|].
  destruct (Hdr.same_name (fst p) n) eqn:E; simpl; [assumption|].
  now rewrite E.
Qed.

Lemma values_delete_other (h : Headers) (n m : string) :
  Hdr.same_name n m = false ->
  Hdr.values (Hdr.delete h n) m = Hdr.values h m.
Proof.
  intros Hnm. unfold Hdr.values, Hdr.delete.
  induction h as [|p h IH]; simpl; [reflexivity|].
  destruct (Hdr.same_name (fst p) n) eqn:E; simpl.
  - now rewrite (same_name_other _ _ _ E Hnm).
  - destruct (Hdr.same_name (fst p) m); simpl; now rewrite IH.
Qed.

Lemma values_append (h : Headers) (n v m : string) :
  Hdr.values (Hdr.append h n v) m =
  (Hdr.values h m ++ if Hdr.same_name n m then [v] else [])%list.
Proof.
  unfold Hdr.values, Hdr.append.
  rewrite filter_app, map_app. simpl.
  now destruct (Hdr.same_name n m).
Qed.

Lemma values_set_other (h : Headers) (n v m : string) :
  Hdr.same_name n m = false ->
  Hdr.values (Hdr.set h n v) m = Hdr.values h m.
Proof.
  intros Hnm.
  induction h as [|p h IH]; simpl.
  - unfold Hdr.values. simpl. now rewrite Hnm.
  - destruct (Hdr.same_name (fst p) n) eqn:E.
    + pose proof (same_name_other _ _ _ E Hnm) as F.
      unfold Hdr.values in *. simpl. rewrite F.
      apply (values_delete_other h n m Hnm).
    + unfold Hdr.values in *. simpl.
      destruct (Hdr.same_name (fst p) m); simpl; now rewrite IH.
Qed.

Lemma values_set_same (h : Headers) (n v : string) :
  Hdr.values (Hdr.set h n v) n = [v].
Proof.
  induction h as [|p h IH]; simpl.
  - unfold Hdr.values. simpl. now rewrite same_name_refl.
  - destruct (Hdr.same_name (fst p) n) eqn:E.
    + unfold Hdr.values. simpl. rewrite E. simpl. f_equal.
      apply (values_delete_same h n).
    + unfold Hdr.values in *. simpl. now rewrite E.
Qed.

Lemma get_of_values (h h' : Headers) (m : string) :
  Hdr.values h m = Hdr.values h' m -> Hdr.get h m = Hdr.get h' m.
Proof. unfold Hdr.get. now intros ->. Qed.

Lemma get_set_same (h : Headers) (n v : string) :
  Hdr.get (Hdr.set h n v) n = Some v.
Proof. unfold Hdr.get. now rewrite values_set_same. Qed.

Lemma get_delete_same (h : Headers) (n : string) :
  Hdr.get (Hdr.delete h n) n = None.
Proof. unfold Hdr.get. now rewrite values_delete_same. Qed.

Lemma delete_no_entry (h : Headers) (n : string) :
  Forall (fun p => Hdr.same_name (fst p) n = false) (Hdr.delete h n).
Proof.
  unfold Hdr.delete. apply Forall_forall. intros p Hp.
  apply filter_In in Hp as [_ Hp]. now apply negb_true_iff.
Qed.

Lemma values_fold_append (f : string -> string) (n : string)
    (l : list string) (h : Headers) (m : string) :
  Hdr.values (fold_left (fun acc x => Hdr.append acc n (f x)) l h) m =
  (Hdr.values h m ++ if Hdr.same_name n m then map f l else [])%list.
Proof.
  revert h; induction l as [|x l IH]; intros h; simpl.
  - destruct (Hdr.same_name n m); now rewrite app_nil_r.
  - rewrite IH, values_append.
    destruct (Hdr.same_name n m); simpl;
      now rewrite <- app_assoc.
Qed.

(** ** The steps of [postMiddleware] *)

Section Post.

Variable new_URL : string -> option string -> option URL.

Lemma post_location_other (a : string) (h : Headers) (m : string) :
  Hdr.same_name "Location" m = false ->
  Hdr.values (post_location new_URL a h) m = Hdr.values h m.
Proof.
  intros H. unfold post_location.
  destruct (Hdr.get h "Location") as [[|c loc]|]; try reflexivity.
  destruct (new_URL _ _) as [u|]; [|reflexivity].
  destruct (eqHost _ _); [|reflexivity].
  now apply values_set_other.
Qed.

(** When the Location value does not resolve, the header list stays as
    it is. *)
Lemma post_location_unresolved (a : string) (h : Headers) (loc : string) :
  Hdr.get h "Location" = Some loc ->
  new_URL loc (Some ("https://" ++ a)) = None ->
  post_location new_URL a h = h.
Proof.
  intros Hl Hn. unfold post_location. rewrite Hl.
  destruct loc; [reflexivity|]. now rewrite Hn.
Qed.

(** When the Location is re-emitted, the host written into it is the
    host of the target URL held in the context. *)
Lemma post_location_rewritten (a : string) (h : Headers)
    (loc : string) (u : URL) :
  Hdr.get h "Location" = Some loc -> loc <> EmptyString ->
  new_URL loc (Some ("https://" ++ a)) = Some u ->
  eqHost (hostname u) a = true ->
  Hdr.get (post_location new_URL a h) "Location" =
  Some (toString (set_hostname u a)).
Proof.
  intros Hl Hne Hn He. unfold post_location. rewrite Hl.
  destruct loc; [congruence|]. rewrite Hn, He.
  apply get_set_same.
Qed.

Lemma post_set_cookie_other (t : string) (h : Headers) (m : string) :
  Hdr.same_name "Set-Cookie" m = false ->
  Hdr.values (post_set_cookie t h) m = Hdr.values h m.
Proof.
  intros H. unfold post_set_cookie.
  destruct (Hdr.getSetCookie h) as [|x l] eqn:E.
  - destruct (Hdr.get h "Set-Cookie") as [[|c one]|]; try reflexivity.
    now apply values_set_other.
  - rewrite (values_fold_append
               (fun cki => JS.replace_domain cki (cookie_domain_replacement t))).
    rewrite H, app_nil_r. now apply values_delete_other.
Qed.

(** Every cookie is rewritten on its own, and the cookies stay as many
    and in the same order. *)
Lemma post_set_cookie_each (t : string) (h : Headers) :
  Hdr.getSetCookie (post_set_cookie t h) =
  map (fun cki => JS.replace_domain cki (cookie_domain_replacement t))
      (Hdr.getSetCookie h).
Proof.
  unfold post_set_cookie.
  destruct (Hdr.getSetCookie h) as [|x l] eqn:E.
  - unfold Hdr.get. unfold Hdr.getSetCookie in E. rewrite E. exact E.
  - unfold Hdr.getSetCookie.
    rewrite (values_fold_append
               (fun cki => JS.replace_domain cki (cookie_domain_replacement t))).
    now rewrite same_name_refl, values_delete_same.
Qed.

Lemma post_csp_other (t : string) (h : Headers) (m : string) :
  Hdr.same_name "Content-Security-Policy" m = false ->
  Hdr.values (post_csp t h) m = Hdr.values h m.
Proof.
  intros H. unfold post_csp.
  destruct (Hdr.get h _) as [csp|]; [|reflexivity].
  destruct (JS.includes csp t); [|reflexivity].
  now apply values_set_other.
Qed.

Lemma post_csp_value (t : string) (h : Headers) (csp : string) :
  Hdr.get h "Content-Security-Policy" = Some csp ->
  Hdr.get (post_csp t h) "Content-Security-Policy" =
  Some (if JS.includes csp t then JS.replaceAll csp t t else csp).
Proof.
  intros H. unfold post_csp. rewrite H.
  destruct (JS.includes csp t); [apply get_set_same | exact H].
Qed.

End Post.

(** ** The request gate: [preMiddleware] *)

Section Gate.

Variable new_URL : string -> option string -> option URL.

(** What [preMiddleware] does once the request URL and the two
    configured domains have been parsed. *)
Lemma preMiddleware_parsed (c : Context) (next : Next) (r a t : URL) :
  new_URL (req_url c) None = Some r ->
  normailzeUrl new_URL (inr (ALIAS_DOMAIN (env c))) = Returned a ->
  normailzeUrl new_URL (inr (TARGET_DOMAIN (env c))) = Returned t ->
  preMiddleware new_URL c next =
  if String.eqb (hostname r) (hostname a) then
    next (set_targetURL (set_requestURL c r)
            (set_search (set_pathname t (pathname r)) (search r)))
  else Returned (c_text c "Not allowed" 403).
Proof.
  intros Hr Ha Ht. unfold preMiddleware.
  rewrite Hr. cbn [of_option bind]. rewrite Ha. cbn [bind].
  rewrite Ht. cbn [bind].
  now destruct (String.eqb (hostname r) (hostname a)).
Qed.

(** C5.  A request whose host name is not the host name of the
    configured alias domain is answered with status 403 and the body
    [Not allowed], whatever the rest of the chain is: [next] is not run,
    so no upstream fetch is attempted and no context variable is set. *)
Theorem preMiddleware_unauthorized_host
    (c : Context) (next : Next) (r a t : URL) :
  new_URL (req_url c) None = Some r ->
  normailzeUrl new_URL (inr (ALIAS_DOMAIN (env c))) = Returned a ->
  normailzeUrl new_URL (inr (TARGET_DOMAIN (env c))) = Returned t ->
  hostname r <> hostname a ->
  exists c',
    preMiddleware new_URL c next = Returned c' /\
    c' = c_text c "Not allowed" 403 /\
    status (res c') = 403 /\
    body (res c') = "Not allowed" /\
    requestURL c' = requestURL c /\ targetURL c' = targetURL c.
Proof.
  intros Hr Ha Ht Hne.
  exists (c_text c "Not allowed" 403).
  rewrite (preMiddleware_parsed c next r a t Hr Ha Ht).
  apply String.eqb_neq in Hne. rewrite Hne.
  repeat split.
Qed.

(** C10.  The gate compares host names and nothing else: with the
    request URL and the configuration parsed, a request whose host name
    is that of the normalized alias domain goes on to [next], with
    [requestURL] and [targetURL] set, whatever its scheme and port are;
    every other host name is answered with the 403 response. *)
Theorem preMiddleware_compares_hostname
    (c : Context) (next : Next) (r a t : URL) :
  new_URL (req_url c) None = Some r ->
  normailzeUrl new_URL (inr (ALIAS_DOMAIN (env c))) = Returned a ->
  normailzeUrl new_URL (inr (TARGET_DOMAIN (env c))) = Returned t ->
  (hostname r = hostname a ->
   preMiddleware new_URL c next =
   next (set_targetURL (set_requestURL c r)
           (set_search (set_pathname t (pathname r)) (search r))))
  /\
  (hostname r <> hostname a ->
   preMiddleware new_URL c next = Returned (c_text c "Not allowed" 403)).
Proof.
  intros Hr Ha Ht.
  rewrite (preMiddleware_parsed c next r a t Hr Ha Ht).
  split; intros H.
  - apply String.eqb_eq in H. now rewrite H.
  - apply String.eqb_neq in H. now rewrite H.
Qed.

End Gate.

(** ** The response headers: [postMiddleware] *)

Section PostMiddleware.

Variable new_URL : string -> option string -> option URL.

Lemma postMiddleware_returns (c c1 : Context) (next : Next) (t : URL) :
  next c = Returned c1 -> targetURL c1 = Some t ->
  postMiddleware new_URL c next =
  Returned
    (with_headers c1
       (Hdr.delete
          (post_csp (TARGET_DOMAIN (env c1))
             (post_set_cookie (TARGET_DOMAIN (env c1))
                (post_location new_URL (hostname t) (headers (res c1)))))
          "Strict-Transport-Security")).
Proof.
  intros Hn Ht. unfold postMiddleware.
  rewrite Hn. cbn [bind]. rewrite Ht. reflexivity.
Qed.

(** C7.  Once the rest of the chain has answered and the context holds
    the target URL, [postMiddleware] returns, and the response it leaves
    has no Strict-Transport-Security header, in whatever letter case the
    origin wrote the name. *)
Theorem postMiddleware_drops_hsts
    (c c1 : Context) (next : Next) (t : URL) :
  next c = Returned c1 -> targetURL c1 = Some t ->
  exists c2,
    postMiddleware new_URL c next = Returned c2 /\
    Hdr.get (headers (res c2)) "Strict-Transport-Security" = None /\
    Forall (fun p => Hdr.same_name (fst p) "Strict-Transport-Security" = false)
           (headers (res c2)).
Proof.
  intros Hn Ht. eexists. split; [|split].
  - apply (postMiddleware_returns c c1 next t Hn Ht).
  - apply get_delete_same.
  - apply delete_no_entry.
Qed.

(** C8 as amended.  When the configured target domain holds no dollar
    sign and occurs in the Content-Security-Policy value of the
    response, the value that [postMiddleware] leaves is the value it
    found. *)
Theorem postMiddleware_csp_unchanged
    (c c1 : Context) (next : Next) (t : URL) (csp : string) :
  next c = Returned c1 -> targetURL c1 = Some t ->
  Hdr.get (headers (res c1)) "Content-Security-Policy" = Some csp ->
  JS.includes csp (TARGET_DOMAIN (env c1)) = true ->
  no_dollar (TARGET_DOMAIN (env c1)) = true ->
  exists c2,
    postMiddleware new_URL c next = Returned c2 /\
    Hdr.get (headers (res c2)) "Content-Security-Policy" = Some csp.
Proof.
  intros Hn Ht Hc Hi Hd. eexists. split.
  - apply (postMiddleware_returns c c1 next t Hn Ht).
  - cbn [with_headers with_res res headers].
    rewrite (get_of_values _ _ _
               (values_delete_other _ "Strict-Transport-Security"
                  "Content-Security-Policy" eq_refl)).
    rewrite (post_csp_value _ _ csp).
    + rewrite Hi. now rewrite replaceAll_self.
    + rewrite <- Hc. apply get_of_values.
      rewrite post_set_cookie_other by reflexivity.
      now rewrite post_location_other by reflexivity.
Qed.

End PostMiddleware.

(** ** The canonical link: [headersMiddleware] *)

Section HeadersMiddleware.

Variable new_URL : string -> option string -> option URL.

(** The middleware throws when the request is an HTML one and the
    configured target domain does not parse as a URL of its own. *)
Lemma headersMiddleware_throws
    (c c1 : Context) (next : Next) (r : URL) (ct : string) :
  next (robots c) = Returned c1 ->
  new_URL (req_url c1) None = Some r ->
  Hdr.get (req_headers c1) "content-type" = Some ct ->
  JS.includes ct "text/html" = true ->
  new_URL (TARGET_DOMAIN (env c1)) None = None ->
  headersMiddleware new_URL c next = Thrown TypeError.
Proof.
  intros Hn Hr Hc Hi Ht. unfold headersMiddleware.
  fold (robots c). rewrite Hn. cbn [bind]. rewrite Hr. cbn [of_option bind].
  cbn [set_forwardHeaders req_headers env req_url].
  rewrite Hc, Hi, Ht. reflexivity.
Qed.

Lemma append_nil_r (a : string) : a ++ EmptyString = a.
Proof. induction a; simpl; congruence. Qed.

Lemma append_assoc (a b c : string) : (a ++ b) ++ c = a ++ (b ++ c).
Proof. induction a; simpl; congruence. Qed.

(** the URL that [headersMiddleware] writes into the Link header: the
    target URL with the path and the query of the request *)
Lemma canonical_url_components (m r : URL) :
  url_opaque_path m = false -> prefix "/" (pathname r) = true ->
  let u := set_search (set_pathname m (pathname r)) (search r) in
  url_scheme u = url_scheme m /\
  url_username u = url_username m /\ url_password u = url_password m /\
  url_host u = url_host m /\ url_port u = url_port m /\
  url_fragment u = url_fragment m /\
  pathname u = pathname r /\ search u = search r /\
  (url_host m <> None ->
   url_username m = EmptyString -> url_password m = EmptyString ->
   url_fragment m = None ->
   toString u = protocol m ++ "//" ++ host m ++ pathname r ++ search r).
Proof.
  intros Ho Hp u. subst u.
  unfold set_pathname. rewrite Ho.
  unfold pathname in *.
  destruct (url_path r) as [|c p] eqn:Er; [discriminate|].
  cbn [prefix] in Hp. destruct (ascii_dec "/" c) as [E|E]; [|discriminate].
  subst c. rewrite Ascii.eqb_refl.
  repeat split.
  - unfold search, set_search. cbn [url_query].
    destruct (url_query r) as [[|d q]|]; reflexivity.
  - intros Hh Hu Hw Hf.
    unfold toString, set_search, search, host, protocol.
    cbn [url_scheme url_username url_password url_host url_port url_path
         url_opaque_path url_query url_fragment].
    rewrite Hu, Hw, Hf.
    destruct (url_host m) as [h|]; [|congruence].
    change (String.eqb EmptyString EmptyString) with true. cbn [andb].
    destruct (url_query r) as [[|d q]|];
      [ | change (Ascii.eqb "?" "?") with true | ];
      cbv iota; rewrite ?append_nil_r;
      destruct (url_port m);
      rewrite ?append_assoc; cbn [String.append];
      rewrite ?append_assoc, ?append_nil_r; reflexivity.
Qed.

(** C2 as amended.  On a request whose content-type header contains
    [text/html], with a target domain that parses as a URL with a
    hierarchical path, the Link header is set to [<U>; rel="canonical"],
    where [U] is the URL of the target domain (its scheme, credentials,
    host, port and fragment) with the path and the query of the request:
    for a target domain without credentials and fragment, the scheme,
    host and port of the target domain followed by the path and the
    query of the request. *)
Theorem headersMiddleware_canonical_link
    (c c1 : Context) (next : Next) (r m : URL) (ct : string) :
  next (robots c) = Returned c1 ->
  new_URL (req_url c1) None = Some r ->
  prefix "/" (pathname r) = true ->
  Hdr.get (req_headers c1) "content-type" = Some ct ->
  JS.includes ct "text/html" = true ->
  new_URL (TARGET_DOMAIN (env c1)) None = Some m ->
  url_opaque_path m = false ->
  exists c2 u,
    headersMiddleware new_URL c next = Returned c2 /\
    Hdr.get (headers (res c2)) "Link" = Some (canonical_link_of u) /\
    url_scheme u = url_scheme m /\
    url_username u = url_username m /\ url_password u = url_password m /\
    url_host u = url_host m /\ url_port u = url_port m /\
    url_fragment u = url_fragment m /\
    pathname u = pathname r /\ search u = search r /\
    (url_host m <> None ->
     url_username m = EmptyString -> url_password m = EmptyString ->
     url_fragment m = None ->
     toString u = protocol m ++ "//" ++ host m ++ pathname r ++ search r).
Proof.
  intros Hn Hr Hp Hc Hi Hm Ho.
  exists (c_header (forwarded c1 r) "Link"
            (canonical_link_of
               (set_search (set_pathname m (pathname r)) (search r)))),
         (set_search (set_pathname m (pathname r)) (search r)).
  split; [|split].
  - unfold headersMiddleware. fold (robots c).
    rewrite Hn. cbn [bind]. rewrite Hr. cbn [of_option bind].
    cbn [set_forwardHeaders req_headers env req_url].
    rewrite Hc, Hi, Hm. cbn [of_option bind].
    rewrite Hr. cbn [of_option bind]. reflexivity.
  - cbn [c_header with_headers with_res res headers].
    apply get_set_same.
  - exact (canonical_url_components m r Ho Hp).
Qed.

End HeadersMiddleware.

(** ** The URL transform: [convertToMaskedURL] *)

Section Transform.

Variable new_URL : string -> option string -> option URL.

(** C4.  A string that does not reference the target domain comes back
    as it is: a [data:] URI, a string whose resolution fails, a URL of
    another scheme than http and https, a URL of another host.  The
    function is total: it has no outcome other than a string. *)
Theorem convertToMaskedURL_passthrough
    (originalUrl : string) (maskedURL requestURL : URL) :
  ~ references_target new_URL originalUrl maskedURL ->
  convertToMaskedURL new_URL originalUrl maskedURL requestURL = originalUrl.
Proof.
  intros H. unfold convertToMaskedURL.
  destruct (JS.startsWith originalUrl "data:") eqn:Ed; [reflexivity|].
  destruct (resolve_reference new_URL originalUrl maskedURL) as [u|] eqn:Eu;
    [|reflexivity].
  destruct (String.eqb (protocol u) "http:" || String.eqb (protocol u) "https:")
    eqn:Ep; [|reflexivity].
  cbn [negb].
  assert (Hp : protocol u = "http:" \/ protocol u = "https:").
  { apply orb_true_iff in Ep as [E|E]; apply String.eqb_eq in E; auto. }
  destruct (String.eqb (hostname u) (hostname maskedURL)) eqn:Eh.
  - exfalso. apply H. split; [assumption|]. exists u.
    apply String.eqb_eq in Eh. auto.
  - destruct (strip_suffix _ _) as [sub|] eqn:Es; [|reflexivity].
    exfalso. apply H. split; [assumption|]. exists u.
    apply strip_suffix_sound in Es.
    repeat split; auto. right. now exists sub.
Qed.

(** The kinds of string named by the claim do not reference the target
    domain. *)
Lemma data_uri_no_reference (originalUrl : string) (maskedURL : URL) :
  JS.startsWith originalUrl "data:" = true ->
  ~ references_target new_URL originalUrl maskedURL.
Proof. intros H [H' _]. congruence. Qed.

Lemma unresolved_no_reference (originalUrl : string) (maskedURL : URL) :
  resolve_reference new_URL originalUrl maskedURL = None ->
  ~ references_target new_URL originalUrl maskedURL.
Proof. intros H [_ [u [H' _]]]. congruence. Qed.

(** a string with no leading slash that is no URL by itself is
    malformed *)
Lemma malformed_no_reference (originalUrl : string) (maskedURL : URL) :
  JS.startsWith originalUrl "/" = false ->
  new_URL originalUrl None = None ->
  ~ references_target new_URL originalUrl maskedURL.
Proof.
  intros Hs Hn. apply unresolved_no_reference.
  unfold resolve_reference. now rewrite Hs.
Qed.

Lemma other_scheme_no_reference
    (originalUrl : string) (maskedURL u : URL) :
  resolve_reference new_URL originalUrl maskedURL = Some u ->
  protocol u <> "http:" -> protocol u <> "https:" ->
  ~ references_target new_URL originalUrl maskedURL.
Proof.
  intros H H1 H2 [_ [u' [H' [[Hp|Hp] _]]]];
    rewrite H in H'; injection H' as <-; contradiction.
Qed.

Lemma other_host_no_reference
    (originalUrl : string) (maskedURL u : URL) :
  resolve_reference new_URL originalUrl maskedURL = Some u ->
  hostname u <> hostname maskedURL ->
  ~ is_subdomain_of (hostname u) (hostname maskedURL) ->
  ~ references_target new_URL originalUrl maskedURL.
Proof.
  intros H H1 H2 [_ [u' [H' [_ [Hh|Hh]]]]];
    rewrite H in H'; injection H' as <-; contradiction.
Qed.

(** a host that does not end with a dot and the masked host is not
    below it *)
Lemma not_subdomain (h m : string) :
  strip_suffix ("." ++ m) h = None -> ~ is_subdomain_of h m.
Proof.
  intros H [sub E]. subst h.
  change (sub ++ "." ++ m) with (sub ++ ("." ++ m)) in H.
  rewrite strip_suffix_app in H. discriminate.
Qed.

(** a string that begins with [http:] or [https:] is no [data:] URI and
    has no leading slash *)
Lemma http_string_shape (originalUrl rest : string) (u : URL) :
  protocol u = "http:" \/ protocol u = "https:" ->
  originalUrl = protocol u ++ rest ->
  JS.startsWith originalUrl "data:" = false /\
  JS.startsWith originalUrl "/" = false.
Proof.
  intros [Hp|Hp] ->; rewrite Hp; split; reflexivity.
Qed.

(** C3 as amended.  Let an absolute URL string be written as it
    resolves: the scheme http or https, [//], the host and port, then
    the path, query and fragment, here [tail].  When the host is the
    masked host, the result is the scheme, host and port of
    [requestURL] followed by [tail], byte for byte; when the host is a
    subdomain of the masked host, the labels of the subdomain stand in
    front of the host of [requestURL], and [tail] follows as it is. *)
Theorem convertToMaskedURL_under_target
    (originalUrl tail : string) (maskedURL requestURL u : URL) :
  new_URL originalUrl None = Some u ->
  protocol u = "http:" \/ protocol u = "https:" ->
  pathname u ++ search u ++ hash u = tail ->
  originalUrl = protocol u ++ "//" ++ host u ++ tail ->
  (hostname u = hostname maskedURL ->
   convertToMaskedURL new_URL originalUrl maskedURL requestURL =
   protocol requestURL ++ "//" ++ host requestURL ++ tail)
  /\
  (forall sub,
     sub <> EmptyString ->
     hostname u = sub ++ "." ++ hostname maskedURL ->
     convertToMaskedURL new_URL originalUrl maskedURL requestURL =
     protocol requestURL ++ "//" ++ sub ++ "." ++ host requestURL ++ tail).
Proof.
  intros Hu Hp Ht Ho.
  destruct (http_string_shape originalUrl ("//" ++ host u ++ tail) u Hp Ho)
    as [Hd Hs].
  assert (Hr : resolve_reference new_URL originalUrl maskedURL = Some u).
  { unfold resolve_reference. now rewrite Hs. }
  assert (Ep : String.eqb (protocol u) "http:"
               || String.eqb (protocol u) "https:" = true).
  { apply orb_true_iff. destruct Hp as [E|E]; rewrite E; auto. }
  split.
  - intros Hh. unfold convertToMaskedURL.
    rewrite Hd, Hr, Ep. cbn [negb].
    apply String.eqb_eq in Hh. now rewrite Hh, Ht.
  - intros sub Hsub Hh. unfold convertToMaskedURL.
    rewrite Hd, Hr, Ep. cbn [negb].
    destruct (String.eqb (hostname u) (hostname maskedURL)) eqn:E.
    + apply String.eqb_eq in E. rewrite E in Hh.
      apply (f_equal String.length) in Hh.
      rewrite length_app in Hh. simpl in Hh.
      destruct sub; [congruence | simpl in Hh; lia].
    + rewrite Hh, strip_suffix_app, Ht. reflexivity.
Qed.

End Transform.

(** * The middleware on the requests of the tests *)

Import Fixture.

(** ** The gate *)

Lemma preMiddleware_unauthorized_host_witness :
  exists c',
    preMiddleware Whatwg.new_URL unauthorized_request success = Returned c' /\
    c' = c_text unauthorized_request "Not allowed" 403 /\
    status (res c') = 403 /\
    body (res c') = "Not allowed" /\
    requestURL c' = requestURL unauthorized_request /\
    targetURL c' = targetURL unauthorized_request.
Proof.
  apply (preMiddleware_unauthorized_host Whatwg.new_URL
           unauthorized_request success
           (url_of "https://unauthorized.com/test")
           (url_of "https://test.example.com")
           (url_of "https://httpbin.org")).
  - vm_compute. reflexivity.
  - vm_compute. reflexivity.
  - vm_compute. reflexivity.
  - vm_compute. discriminate.
Defined.

(** [http://localhost:8787] passes the gate of the alias [localhost]:
    neither the scheme nor the port is looked at. *)
Lemma preMiddleware_compares_hostname_witness :
  preMiddleware Whatwg.new_URL local_request success =
  success
    (set_targetURL
       (set_requestURL local_request (url_of "http://localhost:8787/page?x=1"))
       (url_of "https://www.origin-site.com/page?x=1")).
Proof.
  apply (proj1 (preMiddleware_compares_hostname Whatwg.new_URL
                  local_request success
                  (url_of "http://localhost:8787/page?x=1")
                  (url_of "https://localhost")
                  (url_of "https://www.origin-site.com")
                  ltac:(vm_compute; reflexivity)
                  ltac:(vm_compute; reflexivity)
                  ltac:(vm_compute; reflexivity))).
  vm_compute. reflexivity.
Defined.

Example preMiddleware_sets_urls :
  preMiddleware Whatwg.new_URL
    (request test_env
       "https://test.example.com/path/to/resource?param=value&other=test" [])
    (fun c => Returned
       (with_res c
          (mkResponse 200 []
             (match requestURL c, targetURL c with
              | Some r, Some t => toString r ++ " " ++ toString t
              | _, _ => EmptyString
              end)))) =
  Returned
    (with_res
       (set_targetURL
          (set_requestURL
             (request test_env
                "https://test.example.com/path/to/resource?param=value&other=test"
                [])
             (url_of
                "https://test.example.com/path/to/resource?param=value&other=test"))
          (url_of "https://httpbin.org/path/to/resource?param=value&other=test"))
       (mkResponse 200 []
          ("https://test.example.com/path/to/resource?param=value&other=test"
           ++ " " ++
           "https://httpbin.org/path/to/resource?param=value&other=test"))).
Proof. vm_compute. reflexivity. Qed.

(** ** The response headers *)

Lemma postMiddleware_drops_hsts_witness :
  exists c2,
    postMiddleware Whatwg.new_URL (gated (plain_request test_env)) hsts_and_csp
      = Returned c2 /\
    Hdr.get (headers (res c2)) "Strict-Transport-Security" = None /\
    Forall (fun p => Hdr.same_name (fst p) "Strict-Transport-Security" = false)
           (headers (res c2)).
Proof.
  apply (postMiddleware_drops_hsts Whatwg.new_URL
           (gated (plain_request test_env))
           (with_res (gated (plain_request test_env))
              (mkResponse 200
                 [("Content-Security-Policy", "default-src 'self' httpbin.org");
                  ("Strict-Transport-Security", "max-age=31536000")]
                 "success"))
           hsts_and_csp
           (url_of "https://httpbin.org/test")).
  - reflexivity.
  - reflexivity.
Defined.

Lemma postMiddleware_csp_unchanged_witness :
  exists c2,
    postMiddleware Whatwg.new_URL (gated (plain_request test_env)) hsts_and_csp
      = Returned c2 /\
    Hdr.get (headers (res c2)) "Content-Security-Policy" =
    Some "default-src 'self' httpbin.org".
Proof.
  apply (postMiddleware_csp_unchanged Whatwg.new_URL
           (gated (plain_request test_env))
           (with_res (gated (plain_request test_env))
              (mkResponse 200
                 [("Content-Security-Policy", "default-src 'self' httpbin.org");
                  ("Strict-Transport-Security", "max-age=31536000")]
                 "success"))
           hsts_and_csp
           (url_of "https://httpbin.org/test")).
  - reflexivity.
  - reflexivity.
  - vm_compute. reflexivity.
  - vm_compute. reflexivity.
  - vm_compute. reflexivity.
Defined.

(** C8, as stated, fails when the target domain holds [$$]: the gate
    accepts the configuration, the policy of the response contains the
    target domain, and the replacement text [shop$$.example] expands to
    [shop$.example], so the value that comes out is not the value that
    went in. *)
Lemma postMiddleware_csp_dollar :
  JS.includes "default-src 'self' shop$$.example"
              (TARGET_DOMAIN dollar_env) = true /\
  response_header (pre_post dollar_csp (plain_request dollar_env))
                  "Content-Security-Policy"
  = Some "default-src 'self' shop$.example" /\
  response_header (pre_post dollar_csp (plain_request dollar_env))
                  "Content-Security-Policy"
  <> response_header (dollar_csp (plain_request dollar_env))
                     "Content-Security-Policy".
Proof.
  split; [|split].
  - vm_compute. reflexivity.
  - vm_compute. reflexivity.
  - vm_compute. discriminate.
Qed.

(** C1.  The redirect of the unit test: the origin answers with
    [Location: https://httpbin.org/redirect-target].  The host written
    into the header is the host of [targetURL], so the header that
    leaves still names the target and not the alias
    [test.example.com]. *)
Theorem postMiddleware_location_names_target :
  response_header (pre_post redirect (plain_request test_env)) "Location"
  = Some "https://httpbin.org/redirect-target" /\
  response_header (pre_post redirect (plain_request test_env)) "Location"
  <> Some "https://test.example.com/redirect-target".
Proof.
  split.
  - vm_compute. reflexivity.
  - vm_compute. discriminate.
Qed.

(** A [www.] host in the Location is brought to the host of the target
    URL, which is what the comparison by [eqHost] is used for. *)
Example postMiddleware_location_www :
  response_header
    (pre_post
       (respond 301 [("Location", "https://www.httpbin.org/a?b=1#c")] EmptyString)
       (plain_request test_env))
    "Location"
  = Some "https://httpbin.org/a?b=1#c".
Proof. vm_compute. reflexivity. Qed.

(** A Location on another host, and one that does not parse, go through
    as they are. *)
Example postMiddleware_location_elsewhere :
  response_header
    (pre_post
       (respond 302 [("Location", "https://login.example.net/sso")] EmptyString)
       (plain_request test_env))
    "Location"
  = Some "https://login.example.net/sso"
  /\
  response_header
    (pre_post
       (respond 302 [("Location", "https://:80/")] EmptyString)
       (plain_request test_env))
    "Location"
  = Some "https://:80/".
Proof. split; vm_compute; reflexivity. Qed.

(** C6.  A cookie with two Domain attributes: [replace] without the [g]
    flag rewrites the first and leaves the second, where the branch for a
    single header (with [/gi]) rewrites both. *)
Theorem postMiddleware_cookie_first_domain_only :
  response_cookies (pre_post cookie (plain_request test_env))
  = ["sid=1; Domain=httpbin.org; Path=/; Domain=cdn.origin.example"] /\
  JS.replace_domain_g two_domains
    (cookie_domain_replacement (TARGET_DOMAIN test_env))
  = "sid=1; Domain=httpbin.org; Path=/; Domain=httpbin.org".
Proof. split; vm_compute; reflexivity. Qed.

(** The cookie of the unit test, and two cookies in one response. *)
Example postMiddleware_cookies :
  response_cookies
    (pre_post
       (respond 200
          [("Set-Cookie", "session=abc123; Domain=www.httpbin.org; Path=/");
           ("Content-Type", "text/plain");
           ("set-cookie", "theme=dark;domain=.httpbin.org;Secure");
           ("Set-Cookie", "lang=en; Path=/")]
          "success")
       (plain_request test_env))
  = ["session=abc123; Domain=httpbin.org; Path=/";
     "theme=dark; Domain=httpbin.org;Secure";
     "lang=en; Path=/"].
Proof. vm_compute. reflexivity. Qed.

(** ** The canonical link *)

Lemma headersMiddleware_canonical_link_witness :
  exists c2 u,
    headersMiddleware Whatwg.new_URL
      (request full_env "https://test.example.com/a/b?x=1"
         [("content-type", "text/html")])
      success
    = Returned c2 /\
    Hdr.get (headers (res c2)) "Link" = Some (canonical_link_of u) /\
    pathname u = "/a/b" /\ search u = "?x=1" /\
    toString u = "https://httpbin.org/a/b?x=1".
Proof.
  destruct (headersMiddleware_canonical_link Whatwg.new_URL
              (request full_env "https://test.example.com/a/b?x=1"
                 [("content-type", "text/html")])
              (with_res
                 (robots
                    (request full_env "https://test.example.com/a/b?x=1"
                       [("content-type", "text/html")]))
                 (mkResponse 200 [] "success"))
              success
              (url_of "https://test.example.com/a/b?x=1")
              (url_of "https://httpbin.org")
              "text/html"
              eq_refl
              ltac:(vm_compute; reflexivity)
              ltac:(vm_compute; reflexivity)
              ltac:(vm_compute; reflexivity)
              ltac:(vm_compute; reflexivity)
              ltac:(vm_compute; reflexivity)
              ltac:(vm_compute; reflexivity))
    as (c2 & u & H & Hl & _ & _ & _ & _ & _ & _ & Hp & Hs & Ht).
  exists c2, u. split; [exact H|]. split; [exact Hl|].
  split; [rewrite Hp; vm_compute; reflexivity|].
  split; [rewrite Hs; vm_compute; reflexivity|].
  rewrite Ht.
  - vm_compute. reflexivity.
  - vm_compute. discriminate.
  - vm_compute. reflexivity.
  - vm_compute. reflexivity.
  - vm_compute. reflexivity.
Defined.

(** C2, as stated, fails on the HTML request of the unit test: the Link
    header carries the authority of the target domain, not the authority
    of the URL the request came to. *)
Lemma headersMiddleware_link_not_request_authority :
  response_header
    (headersMiddleware Whatwg.new_URL (html_request full_env) success) "Link"
  = Some (canonical_link_of (url_of "https://httpbin.org/test")) /\
  response_header
    (headersMiddleware Whatwg.new_URL (html_request full_env) success) "Link"
  <> Some (canonical_link_of (url_of "https://test.example.com/test")).
Proof.
  split.
  - vm_compute. reflexivity.
  - vm_compute. discriminate.
Qed.

(** C9.  With [TARGET_DOMAIN] written without a scheme, as in the unit
    tests, [preMiddleware] prefixes [https://] and sets the same target
    URL as for the prefixed configuration, but [headersMiddleware] hands
    the raw string to [new URL] and throws on an HTML request; with the
    prefixed configuration it sets the Link header. *)
Theorem headersMiddleware_throws_without_scheme :
  normailzeUrl Whatwg.new_URL (inr (TARGET_DOMAIN test_env))
  = normailzeUrl Whatwg.new_URL (inr (TARGET_DOMAIN full_env)) /\
  headersMiddleware Whatwg.new_URL (html_request test_env) success
  = Thrown TypeError /\
  response_header
    (headersMiddleware Whatwg.new_URL (html_request full_env) success) "Link"
  = Some (canonical_link_of (url_of "https://httpbin.org/test")).
Proof. repeat split; vm_compute; reflexivity. Qed.

(** ** The URL transform on the strings of test/unit/transform-url.test.ts *)

Example convert_absolute :
  convertToMaskedURL Whatwg.new_URL "https://httpbin.org/api/test"
    masked_url request_url = "https://example.com/api/test".
Proof. vm_compute. reflexivity. Qed.

Example convert_relative :
  convertToMaskedURL Whatwg.new_URL "/api/test" masked_url request_url
  = "https://example.com/api/test".
Proof. vm_compute. reflexivity. Qed.

Example convert_protocol_relative :
  convertToMaskedURL Whatwg.new_URL "//httpbin.org/api/test"
    masked_url request_url = "https://example.com/api/test".
Proof. vm_compute. reflexivity. Qed.

Example convert_localhost :
  convertToMaskedURL Whatwg.new_URL "https://httpbin.org/api/test"
    masked_url localhost_request_url = "http://localhost:8787/api/test".
Proof. vm_compute. reflexivity. Qed.

Example convert_other_host :
  convertToMaskedURL Whatwg.new_URL "https://example.com/api/test"
    masked_url request_url = "https://example.com/api/test".
Proof. vm_compute. reflexivity. Qed.

Example convert_data_uri :
  convertToMaskedURL Whatwg.new_URL
    "data:image/png;base64,iVBORw0KGgoAAAANSUhEUgAAAAEAAAABCAYAAAAfFcSJAAAADUlEQVR42mNkYPhfDwAChwGA60e6kgAAAABJRU5ErkJggg=="
    masked_url request_url
  = "data:image/png;base64,iVBORw0KGgoAAAANSUhEUgAAAAEAAAABCAYAAAAfFcSJAAAADUlEQVR42mNkYPhfDwAChwGA60e6kgAAAABJRU5ErkJggg==".
Proof. vm_compute. reflexivity. Qed.

Example convert_ftp :
  convertToMaskedURL Whatwg.new_URL "ftp://httpbin.org/file.txt"
    masked_url request_url = "ftp://httpbin.org/file.txt".
Proof. vm_compute. reflexivity. Qed.

Example convert_query_and_fragment :
  convertToMaskedURL Whatwg.new_URL
    "https://httpbin.org/api/test?param=value#fragment"
    masked_url request_url
  = "https://example.com/api/test?param=value#fragment".
Proof. vm_compute. reflexivity. Qed.

Example convert_subdomain :
  convertToMaskedURL Whatwg.new_URL "https://api.httpbin.org/test"
    masked_url request_url = "https://api.example.com/test".
Proof. vm_compute. reflexivity. Qed.

(** A host that merely ends with the letters of the masked host is
    another host. *)
Example convert_not_a_subdomain :
  convertToMaskedURL Whatwg.new_URL "https://nothttpbin.org/x"
    masked_url request_url = "https://nothttpbin.org/x".
Proof. vm_compute. reflexivity. Qed.

(** A bare word is no URL by itself and has no leading slash: it is
    malformed, and comes back as it is. *)
Example convert_bare_word :
  Whatwg.new_URL "not-a-valid-url" None = None /\
  convertToMaskedURL Whatwg.new_URL "not-a-valid-url" masked_url request_url
  = "not-a-valid-url".
Proof. split; vm_compute; reflexivity. Qed.

(** Without a base, a string in which no scheme is found does not
    parse; so every such string that has no leading slash is malformed
    for the transform, and comes back as it is. *)
Lemma no_scheme_no_url (s : string) :
  Whatwg.split_scheme
    (fst (Whatwg.cut "?" (fst (Whatwg.cut "#" (Whatwg.clean s))))) = None ->
  Whatwg.new_URL s None = None.
Proof.
  unfold Whatwg.new_URL, Whatwg.basic_parse.
  destruct (Whatwg.cut "#" (Whatwg.clean s)) as [s1 f0].
  cbn [fst]. destruct (Whatwg.cut "?" s1) as [s2 q0].
  cbn [fst]. now intros ->.
Qed.

Lemma convertToMaskedURL_no_scheme (s : string) (maskedURL requestURL : URL) :
  JS.startsWith s "/" = false ->
  Whatwg.split_scheme
    (fst (Whatwg.cut "?" (fst (Whatwg.cut "#" (Whatwg.clean s))))) = None ->
  convertToMaskedURL Whatwg.new_URL s maskedURL requestURL = s.
Proof.
  intros Hs Hn. unfold convertToMaskedURL, resolve_reference.
  rewrite Hs, (no_scheme_no_url s Hn).
  now destruct (JS.startsWith s "data:").
Qed.

(** With [TARGET_DOMAIN] written as host and port only, the string
    parses as a URL of scheme [localhost] with an opaque path: the path
    of the request is not taken. *)
Example headersMiddleware_link_opaque_target :
  response_header
    (headersMiddleware Whatwg.new_URL
       (request (mkEnv "test.example.com" "localhost:8080" "test")
          "https://test.example.com/a/b?x=1" [("content-type", "text/html")])
       success)
    "Link"
  = Some ("<localhost:8080?x=1>; rel=" ++ JS.dquote ++ "canonical" ++ JS.dquote).
Proof. vm_compute. reflexivity. Qed.

Lemma convertToMaskedURL_passthrough_witness :
  convertToMaskedURL Whatwg.new_URL "not-a-valid-url" masked_url request_url
  = "not-a-valid-url"
  /\
  convertToMaskedURL Whatwg.new_URL "ftp://httpbin.org/file.txt"
    masked_url request_url = "ftp://httpbin.org/file.txt"
  /\
  convertToMaskedURL Whatwg.new_URL "https://example.com/api/test"
    masked_url request_url = "https://example.com/api/test".
Proof.
  split; [|split].
  - apply (convertToMaskedURL_passthrough Whatwg.new_URL).
    apply malformed_no_reference.
    + vm_compute. reflexivity.
    + vm_compute. reflexivity.
  - apply (convertToMaskedURL_passthrough Whatwg.new_URL).
    apply (other_scheme_no_reference Whatwg.new_URL _ _
             (url_of "ftp://httpbin.org/file.txt")).
    + vm_compute. reflexivity.
    + vm_compute. discriminate.
    + vm_compute. discriminate.
  - apply (convertToMaskedURL_passthrough Whatwg.new_URL).
    apply (other_host_no_reference Whatwg.new_URL _ _
             (url_of "https://example.com/api/test")).
    + vm_compute. reflexivity.
    + vm_compute. discriminate.
    + apply not_subdomain. vm_compute. reflexivity.
Defined.

Lemma convertToMaskedURL_under_target_witness :
  convertToMaskedURL Whatwg.new_URL
    "https://httpbin.org/api/test?param=value#fragment"
    masked_url localhost_request_url
  = "http:" ++ "//" ++ "localhost:8787" ++ "/api/test?param=value#fragment"
  /\
  convertToMaskedURL Whatwg.new_URL
    "https://api.httpbin.org/test?param=value#fragment"
    masked_url localhost_request_url
  = "http:" ++ "//" ++ "api" ++ "." ++ "localhost:8787"
      ++ "/test?param=value#fragment".
Proof.
  split.
  - apply (proj1 (convertToMaskedURL_under_target Whatwg.new_URL
                    "https://httpbin.org/api/test?param=value#fragment"
                    "/api/test?param=value#fragment"
                    masked_url localhost_request_url
                    (url_of "https://httpbin.org/api/test?param=value#fragment")
                    ltac:(vm_compute; reflexivity)
                    ltac:(right; vm_compute; reflexivity)
                    ltac:(vm_compute; reflexivity)
                    ltac:(vm_compute; reflexivity))).
    vm_compute. reflexivity.
  - apply (proj2 (convertToMaskedURL_under_target Whatwg.new_URL
                    "https://api.httpbin.org/test?param=value#fragment"
                    "/test?param=value#fragment"
                    masked_url localhost_request_url
                    (url_of "https://api.httpbin.org/test?param=value#fragment")
                    ltac:(vm_compute; reflexivity)
                    ltac:(right; vm_compute; reflexivity)
                    ltac:(vm_compute; reflexivity)
                    ltac:(vm_compute; reflexivity))
             "api").
    + discriminate.
    + vm_compute. reflexivity.
Defined.

(** C3, as stated, fails in two ways.  On the subdomain of the unit
    test the URL that comes back has the host [api.example.com], which
    is not the host of [requestURL].  And the path that comes back is
    the resolved one: for [https://httpbin.org/a/../b], an absolute URL
    on the masked host, it is [/b], and the path of the input does not
    occur in the result. *)
Lemma convertToMaskedURL_subdomain_host :
  (is_subdomain_of (hostname (url_of "https://api.httpbin.org/test"))
                   (hostname masked_url) /\
   convertToMaskedURL Whatwg.new_URL "https://api.httpbin.org/test"
     masked_url request_url = "https://api.example.com/test" /\
   option_map host
     (Whatwg.new_URL
        (convertToMaskedURL Whatwg.new_URL "https://api.httpbin.org/test"
           masked_url request_url) None)
   <> Some (host request_url))
  /\
  (hostname (url_of "https://httpbin.org/a/../b") = hostname masked_url /\
   convertToMaskedURL Whatwg.new_URL "https://httpbin.org/a/../b"
     masked_url request_url = "https://example.com/b" /\
   JS.includes
     (convertToMaskedURL Whatwg.new_URL "https://httpbin.org/a/../b"
        masked_url request_url) "/a/../b" = false).
Proof.
  split; [split; [|split] | split; [|split]].
  - exists "api". vm_compute. reflexivity.
  - vm_compute. reflexivity.
  - vm_compute. discriminate.
  - vm_compute. reflexivity.
  - vm_compute. reflexivity.
  - vm_compute. reflexivity.
Qed.

(** * Further properties of the middleware *)

(** ** [eqHost] *)

Lemma strip_www_plain (a : string) :
  prefix "www." a = false -> JS.strip_www a = a.
Proof. unfold JS.strip_www. now intros ->. Qed.

Lemma strip_www_www (a : string) : JS.strip_www ("www." ++ a) = a.
Proof.
  unfold JS.strip_www.
  change ("www." ++ a) with (String "w" (String "w" (String "w" (String "." a)))).
  assert (H : prefix "www." (String "w" (String "w" (String "w" (String "." a))))
              = true) by (simpl; now destruct a).
  now rewrite H.
Qed.

(** One leading [www.] is ignored, and only one: for two host names
    without that prefix, [eqHost] is equality, also when [www.] is put
    in front of either of them, and a host name never equals itself with
    [www.www.] in front. *)
Theorem eqHost_www (a b : string) :
  prefix "www." a = false -> prefix "www." b = false ->
  (eqHost a b = true <-> a = b) /\
  (eqHost ("www." ++ a) b = true <-> a = b) /\
  (eqHost a ("www." ++ b) = true <-> a = b) /\
  eqHost ("www.www." ++ a) a = false.
Proof.
  intros Ha Hb. unfold eqHost.
  rewrite !strip_www_www, (strip_www_plain a Ha), (strip_www_plain b Hb).
  repeat split; try apply String.eqb_eq.
  change ("www.www." ++ a) with ("www." ++ ("www." ++ a)).
  rewrite strip_www_www.
  apply String.eqb_neq. intros H.
  apply (f_equal String.length) in H. simpl in H. lia.
Qed.

Lemma eqHost_www_witness :
  (eqHost "httpbin.org" "example.com" = true <-> "httpbin.org" = "example.com")
  /\
  (eqHost ("www." ++ "httpbin.org") "example.com" = true
   <-> "httpbin.org" = "example.com") /\
  (eqHost "httpbin.org" ("www." ++ "example.com") = true
   <-> "httpbin.org" = "example.com") /\
  eqHost ("www.www." ++ "httpbin.org") "httpbin.org" = false.
Proof.
  apply (eqHost_www "httpbin.org" "example.com"); reflexivity.
Defined.

(** ** The Domain attribute of one cookie *)

Lemma GetSubstitution_domain (m b a t : string) :
  no_dollar t = true ->
  JS.GetSubstitution m b a (cookie_domain_replacement t)
  = cookie_domain_replacement t.
Proof. intros H. now apply GetSubstitution_no_dollar. Qed.

Lemma app_assoc_string (a b c : string) : (a ++ b) ++ c = a ++ (b ++ c).
Proof. induction a; simpl; congruence. Qed.

Lemma toLowerASCII_app (a b : string) :
  JS.toLowerASCII (a ++ b) = JS.toLowerASCII a ++ JS.toLowerASCII b.
Proof. induction a; simpl; congruence. Qed.

Lemma skip_spaces_split (s sp r : string) :
  JS.skip_spaces s = (sp, r) -> s = sp ++ r.
Proof.
  revert sp r; induction s as [|c s IH]; intros sp r H; simpl in H.
  - now injection H as <- <-.
  - destruct (JS.is_space c).
    + destruct (JS.skip_spaces s) as [sp' r'].
      injection H as <- <-. simpl. f_equal. now apply IH.
    + now injection H as <- <-.
Qed.

Lemma skip_spaces_app (sp r : string) :
  all_spaces sp = true ->
  match r with
  | EmptyString => True
  | String c _ => JS.is_space c = false
  end ->
  JS.skip_spaces (sp ++ r) = (sp, r).
Proof.
  intros Hs Hr. induction sp as [|c sp IH]; simpl in *.
  - destruct r as [|d r]; [reflexivity|]. simpl. now rewrite Hr.
  - apply andb_true_iff in Hs as [Hc Hs]. rewrite Hc, (IH Hs). reflexivity.
Qed.

Lemma match_literal_i_app (lit s : string) :
  JS.match_literal_i (JS.toLowerASCII lit) (lit ++ s) = Some (lit, s).
Proof.
  induction lit as [|c lit IH]; simpl.
  - reflexivity.
  - now rewrite Ascii.eqb_refl, IH.
Qed.

Lemma match_literal_i_prefix (l s lit r : string) :
  JS.match_literal_i l s = Some (lit, r) ->
  prefix l (JS.toLowerASCII s) = true.
Proof.
  revert s lit r; induction l as [|c l IH]; intros s lit r H.
  - now destruct s.
  - destruct s as [|d s]; simpl in H; [discriminate|].
    destruct (Ascii.eqb (JS.lower_ascii d) c) eqn:E; [|discriminate].
    apply Ascii.eqb_eq in E.
    destruct (JS.match_literal_i l s) as [[m r']|] eqn:E2; [|discriminate].
    simpl. destruct (ascii_dec c (JS.lower_ascii d)); [|congruence].
    now apply (IH s m r').
Qed.

Lemma span_not_semi_app (v r : string) :
  no_semi v = true -> at_attribute_end r = true ->
  JS.span_not_semi (v ++ r) = (v, r).
Proof.
  intros Hv Hr. induction v as [|c v IH]; simpl in *.
  - destruct r as [|d r]; [reflexivity|]. simpl in *. now rewrite Hr.
  - apply andb_true_iff in Hv as [Hc Hv].
    apply negb_true_iff in Hc. rewrite Hc, (IH Hv). reflexivity.
Qed.

Lemma includes_prefix (s sub : string) :
  prefix sub s = true -> JS.includes s sub = true.
Proof. intros H. destruct s; cbn [JS.includes]; now rewrite H. Qed.

Lemma includes_app_r (a s sub : string) :
  JS.includes s sub = true -> JS.includes (a ++ s) sub = true.
Proof.
  intros H. induction a as [|c a IH]; [assumption|].
  change (String c a ++ s) with (String c (a ++ s)).
  cbn [JS.includes]. rewrite IH. apply orb_true_r.
Qed.

Lemma includes_tail (c : ascii) (s sub : string) :
  JS.includes (String c s) sub = false -> JS.includes s sub = false.
Proof.
  cbn [JS.includes]. intros H. apply orb_false_iff in H. tauto.
Qed.

(** a match of the pattern needs the letters [domain=] somewhere *)
Lemma match_domain_attr_includes (s m r : string) :
  JS.match_domain_attr s = Some (m, r) ->
  JS.includes (JS.toLowerASCII s) "domain=" = true.
Proof.
  unfold JS.match_domain_attr.
  destruct s as [|c s1]; [discriminate|].
  destruct (Ascii.eqb c ";"); [|discriminate].
  destruct (JS.skip_spaces s1) as [sp s2] eqn:Es.
  destruct (JS.match_literal_i "domain=" s2) as [[lit s3]|] eqn:El;
    [|discriminate].
  intros _.
  apply skip_spaces_split in Es. subst s1.
  apply match_literal_i_prefix in El.
  change (String c (sp ++ s2)) with (String c sp ++ s2).
  rewrite toLowerASCII_app.
  apply includes_app_r. now apply includes_prefix.
Qed.

Lemma match_domain_attr_head (c : ascii) (s : string) :
  Ascii.eqb c ";" = false -> JS.match_domain_attr (String c s) = None.
Proof. intros H. unfold JS.match_domain_attr. now rewrite H. Qed.

Lemma lower_d_not_space (c : ascii) :
  JS.lower_ascii c = "d"%char -> JS.is_space c = false.
Proof.
  destruct c as [[] [] [] [] [] [] [] []]; vm_compute; intros H;
    try reflexivity; discriminate H.
Qed.

Lemma replace_domain_from_no_match (repl cki before : string) :
  JS.includes (JS.toLowerASCII cki) "domain=" = false ->
  JS.replace_domain_from repl before cki = cki.
Proof.
  revert before. induction cki as [|c cki IH]; intros before H.
  - reflexivity.
  - cbn [JS.replace_domain_from].
    destruct (JS.match_domain_attr (String c cki)) as [[m r]|] eqn:E.
    + apply match_domain_attr_includes in E. congruence.
    + f_equal. apply IH.
      change (JS.toLowerASCII (String c cki))
        with (String (JS.lower_ascii c) (JS.toLowerASCII cki)) in H.
      now apply includes_tail in H.
Qed.

(** A cookie in which the letters [domain=] do not occur, in any letter
    case, is left as it is by the rewrite of line 85, whatever the
    replacement. *)
Theorem replace_domain_without_attribute (cki target_domain : string) :
  JS.includes (JS.toLowerASCII cki) "domain=" = false ->
  JS.replace_domain cki (cookie_domain_replacement target_domain) = cki.
Proof. intros H. now apply replace_domain_from_no_match. Qed.

Lemma replace_domain_without_attribute_witness :
  JS.replace_domain "lang=en; Path=/; HttpOnly"
    (cookie_domain_replacement "httpbin.org")
  = "lang=en; Path=/; HttpOnly".
Proof.
  apply replace_domain_without_attribute. vm_compute. reflexivity.
Defined.

Lemma replace_domain_from_skip (repl pre before s : string) :
  no_semi pre = true ->
  exists before',
    JS.replace_domain_from repl before (pre ++ s)
    = pre ++ JS.replace_domain_from repl before' s.
Proof.
  intros H. revert before.
  induction pre as [|c pre IH]; intros before; simpl in H.
  - now exists before.
  - apply andb_true_iff in H as [Hc Hp]. apply negb_true_iff in Hc.
    destruct (IH Hp (JS.snoc before c)) as [b' Hb].
    exists b'.
    change (String c pre ++ s) with (String c (pre ++ s)).
    cbn [JS.replace_domain_from].
    rewrite (match_domain_attr_head c _ Hc), Hb. reflexivity.
Qed.

Lemma match_domain_attr_at (sp lit v rest : string) :
  all_spaces sp = true ->
  JS.toLowerASCII lit = "domain=" ->
  v <> EmptyString -> no_semi v = true ->
  at_attribute_end rest = true ->
  JS.match_domain_attr (String ";" (sp ++ lit ++ v ++ rest))
  = Some (String ";" (sp ++ lit ++ v), rest).
Proof.
  intros Hsp Hlit Hv Hvs Hrest.
  unfold JS.match_domain_attr.
  change (Ascii.eqb ";" ";") with true. cbv iota.
  rewrite skip_spaces_app; [|assumption|].
  - rewrite <- Hlit, match_literal_i_app.
    rewrite span_not_semi_app by assumption.
    destruct v; [congruence | reflexivity].
  - destruct lit as [|c lit]; [discriminate|].
    simpl. apply lower_d_not_space.
    simpl in Hlit. now injection Hlit as -> _.
Qed.

(** The first Domain attribute of a cookie.  Let the cookie be
    [pre ; sp lit v rest], where [pre] holds no [;], [sp] is white
    space, [lit] is [Domain=] in some letter case, [v] is the non-empty
    value up to the next [;] or the end.  With no dollar sign in the
    target domain, the rewrite of line 85 gives
    [pre; Domain=<TARGET_DOMAIN> rest]: the text before the attribute
    and the text after it come out as they went in, the white space
    before the attribute becomes one space and the name is spelt
    [Domain]. *)
Theorem replace_domain_first_attribute
    (pre sp lit v rest target_domain : string) :
  no_semi pre = true ->
  all_spaces sp = true ->
  JS.toLowerASCII lit = "domain=" ->
  v <> EmptyString -> no_semi v = true ->
  at_attribute_end rest = true ->
  no_dollar target_domain = true ->
  JS.replace_domain (pre ++ ";" ++ sp ++ lit ++ v ++ rest)
    (cookie_domain_replacement target_domain)
  = pre ++ "; Domain=" ++ target_domain ++ rest.
Proof.
  intros Hpre Hsp Hlit Hv Hvs Hrest Hd.
  unfold JS.replace_domain.
  destruct (replace_domain_from_skip (cookie_domain_replacement target_domain)
              pre EmptyString (";" ++ sp ++ lit ++ v ++ rest) Hpre)
    as [b Hb].
  rewrite Hb. f_equal.
  pose proof (match_domain_attr_at sp lit v rest Hsp Hlit Hv Hvs Hrest) as Hm.
  change (";" ++ sp ++ lit ++ v ++ rest)
    with (String ";" (sp ++ lit ++ v ++ rest)).
  cbn [JS.replace_domain_from]. rewrite Hm.
  rewrite GetSubstitution_domain by assumption.
  unfold cookie_domain_replacement.
  now rewrite app_assoc_string.
Qed.

Lemma replace_domain_first_attribute_witness :
  JS.replace_domain
    ("session=abc123" ++ ";" ++ " " ++ "DOMAIN=" ++ "www.httpbin.org"
       ++ "; Path=/; Secure")
    (cookie_domain_replacement "httpbin.org")
  = "session=abc123" ++ "; Domain=" ++ "httpbin.org" ++ "; Path=/; Secure".
Proof.
  apply replace_domain_first_attribute; try reflexivity.
  discriminate.
Defined.

(** ** URL setters *)

Lemma set_search_keeps (u : URL) (v : string) :
  protocol (set_search u v) = protocol u /\
  host (set_search u v) = host u /\
  hostname (set_search u v) = hostname u /\
  pathname (set_search u v) = pathname u /\
  hash (set_search u v) = hash u /\
  url_opaque_path (set_search u v) = url_opaque_path u.
Proof. repeat split. Qed.

Lemma set_pathname_keeps (u : URL) (v : string) :
  protocol (set_pathname u v) = protocol u /\
  host (set_pathname u v) = host u /\
  hostname (set_pathname u v) = hostname u /\
  search (set_pathname u v) = search u /\
  hash (set_pathname u v) = hash u /\
  url_opaque_path (set_pathname u v) = url_opaque_path u.
Proof.
  unfold set_pathname. destruct (url_opaque_path u) eqn:E; repeat split.
  simpl. now rewrite E.
Qed.

(** reading back the query that was assigned from another URL *)
Lemma search_set_search (u r : URL) :
  search (set_search u (search r)) = search r.
Proof.
  unfold search at 2 3. unfold set_search.
  destruct (url_query r) as [[|c q]|]; reflexivity.
Qed.

Lemma pathname_set_pathname (u : URL) (p : string) :
  url_opaque_path u = false -> prefix "/" p = true ->
  pathname (set_pathname u p) = p.
Proof.
  intros Ho Hp. unfold set_pathname. rewrite Ho.
  destruct p as [|c p]; [discriminate|].
  cbn [prefix] in Hp. destruct (ascii_dec "/" c) as [E|E]; [|discriminate].
  subst c. reflexivity.
Qed.

Lemma set_hostname_keeps (u : URL) (v : string) :
  url_scheme (set_hostname u v) = url_scheme u /\
  url_username (set_hostname u v) = url_username u /\
  url_password (set_hostname u v) = url_password u /\
  url_port (set_hostname u v) = url_port u /\
  url_path (set_hostname u v) = url_path u /\
  url_query (set_hostname u v) = url_query u /\
  url_fragment (set_hostname u v) = url_fragment u.
Proof.
  unfold set_hostname.
  destruct (url_opaque_path u); [repeat split|].
  destruct (span_host _ _ _) as [h rest].
  destruct (prefix ":" rest); [repeat split|].
  destruct (_ && _); [repeat split|].
  destruct (_ && _); repeat split.
Qed.

(** ** [normailzeUrl] and the gate *)

Section GateMore.

Variable new_URL : string -> option string -> option URL.

(** A domain written without [http://] or [https://] in front is
    normalized as the same domain with [https://] in front: the same
    URL, or the same exception. *)
Theorem normailzeUrl_default_scheme (s : string) :
  JS.has_http_scheme s = false ->
  normailzeUrl new_URL (inr s) = normailzeUrl new_URL (inr ("https://" ++ s)).
Proof.
  intros H. unfold normailzeUrl. rewrite H. cbn [negb].
  assert (E : JS.has_http_scheme ("https://" ++ s) = true).
  { unfold JS.has_http_scheme. rewrite (prefix_app "https://" s).
    apply orb_true_r. }
  now rewrite E.
Qed.

Lemma normailzeUrl_unparsed (s : string) :
  new_URL (if negb (JS.has_http_scheme s) then "https://" ++ s else s) None
  = None ->
  normailzeUrl new_URL (inr s) = Thrown TypeError.
Proof. intros H. unfold normailzeUrl. now rewrite H. Qed.

(** Both configured domains are normalized before the host of the
    request is looked at: when either of them makes [normailzeUrl]
    throw, [preMiddleware] throws the same exception for every request,
    also for one from a host that is not the alias, and [next] is not
    run. *)
Theorem preMiddleware_configuration_error
    (c : Context) (next : Next) (r : URL) (e : string) :
  new_URL (req_url c) None = Some r ->
  normailzeUrl new_URL (inr (ALIAS_DOMAIN (env c))) = Thrown e \/
  (exists a,
     normailzeUrl new_URL (inr (ALIAS_DOMAIN (env c))) = Returned a /\
     normailzeUrl new_URL (inr (TARGET_DOMAIN (env c))) = Thrown e) ->
  preMiddleware new_URL c next = Thrown e.
Proof.
  intros Hr H. unfold preMiddleware. rewrite Hr. cbn [of_option bind].
  destruct H as [Ha | [a [Ha Ht]]]; rewrite Ha; cbn [bind]; [reflexivity|].
  now rewrite Ht.
Qed.

(** What an accepted request hands to the rest of the chain: the
    context with [requestURL] set to the URL of the request and
    [targetURL] set to a URL that has the scheme, host, port and
    fragment of the normalized target domain and the query of the
    request, and also the path of the request when the target URL has a
    hierarchical path; the bindings, the request and the response are
    those of the context on entry. *)
Theorem preMiddleware_target_url
    (c : Context) (next : Next) (r a t : URL) :
  new_URL (req_url c) None = Some r ->
  normailzeUrl new_URL (inr (ALIAS_DOMAIN (env c))) = Returned a ->
  normailzeUrl new_URL (inr (TARGET_DOMAIN (env c))) = Returned t ->
  hostname r = hostname a ->
  exists c' t',
    preMiddleware new_URL c next = next c' /\
    requestURL c' = Some r /\ targetURL c' = Some t' /\
    protocol t' = protocol t /\ host t' = host t /\ hash t' = hash t /\
    search t' = search r /\
    (url_opaque_path t = false -> prefix "/" (pathname r) = true ->
     pathname t' = pathname r) /\
    env c' = env c /\ req_url c' = req_url c /\
    req_headers c' = req_headers c /\ res c' = res c /\
    forwardHeaders c' = forwardHeaders c.
Proof.
  intros Hr Ha Ht Hh.
  exists (set_targetURL (set_requestURL c r)
            (set_search (set_pathname t (pathname r)) (search r))).
  exists (set_search (set_pathname t (pathname r)) (search r)).
  rewrite (preMiddleware_parsed new_URL c next r a t Hr Ha Ht).
  apply String.eqb_eq in Hh. rewrite Hh.
  destruct (set_pathname_keeps t (pathname r)) as (P1 & P2 & _ & _ & P5 & _).
  destruct (set_search_keeps (set_pathname t (pathname r)) (search r))
    as (S1 & S2 & _ & S4 & S5 & _).
  repeat split.
  - now rewrite S1.
  - now rewrite S2.
  - now rewrite S5.
  - apply search_set_search.
  - intros Ho Hp. rewrite S4. now apply pathname_set_pathname.
Qed.

(** The gate does not use [eqHost]: a request to the alias with [www.]
    in front of it is not from the alias, and gets the 403 response. *)
Theorem preMiddleware_www_is_another_host
    (c : Context) (next : Next) (r a t : URL) :
  new_URL (req_url c) None = Some r ->
  normailzeUrl new_URL (inr (ALIAS_DOMAIN (env c))) = Returned a ->
  normailzeUrl new_URL (inr (TARGET_DOMAIN (env c))) = Returned t ->
  hostname r = "www." ++ hostname a ->
  preMiddleware new_URL c next = Returned (c_text c "Not allowed" 403).
Proof.
  intros Hr Ha Ht Hh.
  rewrite (preMiddleware_parsed new_URL c next r a t Hr Ha Ht).
  assert (E : String.eqb (hostname r) (hostname a) = false).
  { apply String.eqb_neq. rewrite Hh. intros H.
    apply (f_equal String.length) in H. simpl in H. lia. }
  now rewrite E.
Qed.

End GateMore.

(** ** [postMiddleware], header by header *)

Section PostMore.

Variable new_URL : string -> option string -> option URL.

(** The middleware reads [targetURL] from the context: run in a chain
    where no middleware has set it, it throws once the rest of the chain
    has answered, whatever the response is. *)
Theorem postMiddleware_without_target_url
    (c c1 : Context) (next : Next) :
  next c = Returned c1 -> targetURL c1 = None ->
  postMiddleware new_URL c next = Thrown TypeError.
Proof.
  intros Hn Ht. unfold postMiddleware.
  rewrite Hn. cbn [bind]. now rewrite Ht.
Qed.

(** Apart from the headers Location, Set-Cookie, Content-Security-Policy
    and Strict-Transport-Security, the response goes through as the rest
    of the chain left it: same status, same body, same values for every
    other header name; the bindings, the request and the context
    variables stay too. *)
Theorem postMiddleware_leaves_the_rest
    (c c1 : Context) (next : Next) (t : URL) :
  next c = Returned c1 -> targetURL c1 = Some t ->
  exists c2,
    postMiddleware new_URL c next = Returned c2 /\
    status (res c2) = status (res c1) /\
    body (res c2) = body (res c1) /\
    env c2 = env c1 /\ req_url c2 = req_url c1 /\
    req_headers c2 = req_headers c1 /\
    requestURL c2 = requestURL c1 /\ targetURL c2 = targetURL c1 /\
    forwardHeaders c2 = forwardHeaders c1 /\
    forall m,
      Hdr.same_name "Location" m = false ->
      Hdr.same_name "Set-Cookie" m = false ->
      Hdr.same_name "Content-Security-Policy" m = false ->
      Hdr.same_name "Strict-Transport-Security" m = false ->
      Hdr.values (headers (res c2)) m = Hdr.values (headers (res c1)) m.
Proof.
  intros Hn Ht. eexists. split.
  - apply (postMiddleware_returns new_URL c c1 next t Hn Ht).
  - repeat split.
    intros m H1 H2 H3 H4.
    cbn [with_headers with_res res headers].
    rewrite values_delete_other by assumption.
    rewrite post_csp_other by assumption.
    rewrite post_set_cookie_other by assumption.
    now apply post_location_other.
Qed.

(** The cookies of the response are rewritten one by one: the response
    leaves with as many Set-Cookie values as it came with, in the same
    order, each one the [replace] of line 85 applied to the value at
    that place. *)
Theorem postMiddleware_cookies_one_by_one
    (c c1 : Context) (next : Next) (t : URL) :
  next c = Returned c1 -> targetURL c1 = Some t ->
  exists c2,
    postMiddleware new_URL c next = Returned c2 /\
    Hdr.getSetCookie (headers (res c2)) =
    map (fun cki =>
           JS.replace_domain cki
             (cookie_domain_replacement (TARGET_DOMAIN (env c1))))
        (Hdr.getSetCookie (headers (res c1))).
Proof.
  intros Hn Ht. eexists. split.
  - apply (postMiddleware_returns new_URL c c1 next t Hn Ht).
  - cbn [with_headers with_res res headers].
    unfold Hdr.getSetCookie at 1.
    rewrite values_delete_other by reflexivity.
    rewrite post_csp_other by reflexivity.
    fold (Hdr.getSetCookie
            (post_set_cookie (TARGET_DOMAIN (env c1))
               (post_location new_URL (hostname t) (headers (res c1))))).
    rewrite post_set_cookie_each.
    unfold Hdr.getSetCookie.
    now rewrite post_location_other by reflexivity.
Qed.

(** The branch for a single Set-Cookie header (lines 88 to 95, the one
    with the [g] flag) changes nothing: it is entered only when
    [getSetCookie()] is empty, and then [get('Set-Cookie')] is null. *)
Theorem post_set_cookie_without_cookies (target_domain : string) (h : Headers) :
  Hdr.getSetCookie h = [] -> post_set_cookie target_domain h = h.
Proof.
  intros H. unfold post_set_cookie. rewrite H.
  unfold Hdr.get. unfold Hdr.getSetCookie in H. now rewrite H.
Qed.

Lemma postMiddleware_location_values
    (c c1 : Context) (next : Next) (t : URL) :
  next c = Returned c1 -> targetURL c1 = Some t ->
  exists c2,
    postMiddleware new_URL c next = Returned c2 /\
    Hdr.values (headers (res c2)) "Location" =
    Hdr.values (post_location new_URL (hostname t) (headers (res c1)))
               "Location".
Proof.
  intros Hn Ht. eexists. split.
  - apply (postMiddleware_returns new_URL c c1 next t Hn Ht).
  - cbn [with_headers with_res res headers].
    rewrite values_delete_other by reflexivity.
    rewrite post_csp_other by reflexivity.
    now rewrite post_set_cookie_other by reflexivity.
Qed.

(** A Location that is re-emitted differs from the URL it resolved to
    in its host at most: the scheme, the credentials, the port, the
    path, the query and the fragment of the resolved URL are those of
    the URL written into the header. *)
Theorem postMiddleware_location_components
    (c c1 : Context) (next : Next) (t u : URL) (loc : string) :
  next c = Returned c1 -> targetURL c1 = Some t ->
  Hdr.get (headers (res c1)) "Location" = Some loc ->
  loc <> EmptyString ->
  new_URL loc (Some ("https://" ++ hostname t)) = Some u ->
  eqHost (hostname u) (hostname t) = true ->
  exists c2 u',
    postMiddleware new_URL c next = Returned c2 /\
    Hdr.get (headers (res c2)) "Location" = Some (toString u') /\
    url_scheme u' = url_scheme u /\
    url_username u' = url_username u /\
    url_password u' = url_password u /\
    url_port u' = url_port u /\
    url_path u' = url_path u /\
    url_query u' = url_query u /\
    url_fragment u' = url_fragment u.
Proof.
  intros Hn Ht Hl Hne Hu He.
  destruct (postMiddleware_location_values c c1 next t Hn Ht) as [c2 [H1 H2]].
  exists c2, (set_hostname u (hostname t)).
  split; [exact H1|]. split.
  - rewrite <- (post_location_rewritten new_URL (hostname t)
                  (headers (res c1)) loc u Hl Hne Hu He).
    now apply get_of_values.
  - apply set_hostname_keeps.
Qed.

(** A Location that does not resolve, or resolves to a host that
    [eqHost] tells from the target host, leaves as it came; so does the
    response without a Location: none is added. *)
Theorem postMiddleware_location_untouched
    (c c1 : Context) (next : Next) (t : URL) :
  next c = Returned c1 -> targetURL c1 = Some t ->
  Hdr.get (headers (res c1)) "Location" = None \/
  (exists loc,
     Hdr.get (headers (res c1)) "Location" = Some loc /\
     (new_URL loc (Some ("https://" ++ hostname t)) = None \/
      exists u,
        new_URL loc (Some ("https://" ++ hostname t)) = Some u /\
        eqHost (hostname u) (hostname t) = false)) ->
  exists c2,
    postMiddleware new_URL c next = Returned c2 /\
    Hdr.values (headers (res c2)) "Location" =
    Hdr.values (headers (res c1)) "Location".
Proof.
  intros Hn Ht H.
  destruct (postMiddleware_location_values c c1 next t Hn Ht) as [c2 [H1 H2]].
  exists c2. split; [exact H1|]. rewrite H2.
  unfold post_location.
  destruct H as [H | [loc [H [Hu | [u [Hu He]]]]]]; rewrite H;
    try reflexivity; destruct loc; try reflexivity; rewrite Hu;
    [reflexivity | now rewrite He].
Qed.

End PostMore.

(** ** [headersMiddleware]: the forwarded headers *)

Section HeadersMore.

Variable new_URL : string -> option string -> option URL.

Lemma headersMiddleware_result
    (c c1 c2 : Context) (next : Next) (r : URL) :
  next (robots c) = Returned c1 ->
  new_URL (req_url c1) None = Some r ->
  headersMiddleware new_URL c next = Returned c2 ->
  c2 = forwarded c1 r \/
  exists link, c2 = c_header (forwarded c1 r) "Link" link.
Proof.
  intros Hn Hr. unfold headersMiddleware. fold (robots c).
  rewrite Hn. cbn [bind]. rewrite Hr. cbn [of_option bind].
  fold (forwarded c1 r).
  destruct (Hdr.get (req_headers (forwarded c1 r)) "content-type") as [ct|].
  - destruct (JS.includes ct "text/html").
    + destruct (new_URL (TARGET_DOMAIN (env (forwarded c1 r))) None) as [m|];
        cbn [of_option bind]; [|discriminate].
      change (req_url (forwarded c1 r)) with (req_url c1).
      rewrite Hr. cbn [of_option bind].
      intros H. injection H as <-. right. eexists. reflexivity.
    + intros H. injection H as <-. now left.
  - intros H. injection H as <-. now left.
Qed.

(** The headers stored for the upstream request are the headers of the
    request with X-Forwarded-Host set to the host (and port) of the
    request URL, X-Forwarded-Proto set to [https] whatever the scheme of
    the request, and without Accept-Encoding; every other header of the
    request is kept. *)
Theorem headersMiddleware_forward_headers
    (c c1 c2 : Context) (next : Next) (r : URL) :
  next (robots c) = Returned c1 ->
  new_URL (req_url c1) None = Some r ->
  headersMiddleware new_URL c next = Returned c2 ->
  exists hdr,
    forwardHeaders c2 = Some hdr /\
    Hdr.get hdr "X-Forwarded-Host" = Some (host r) /\
    Hdr.get hdr "X-Forwarded-Proto" = Some "https" /\
    Hdr.get hdr "Accept-Encoding" = None /\
    forall m,
      Hdr.same_name "X-Forwarded-Host" m = false ->
      Hdr.same_name "X-Forwarded-Proto" m = false ->
      Hdr.same_name "Accept-Encoding" m = false ->
      Hdr.values hdr m = Hdr.values (req_headers c1) m.
Proof.
  intros Hn Hr H.
  exists (Hdr.delete
            (Hdr.set (Hdr.set (req_headers c1) "X-Forwarded-Host" (host r))
                     "X-Forwarded-Proto" "https")
            "Accept-Encoding").
  split; [|repeat split].
  - destruct (headersMiddleware_result c c1 c2 next r Hn Hr H)
      as [-> | [link ->]]; reflexivity.
  - unfold Hdr.get.
    rewrite values_delete_other by reflexivity.
    rewrite values_set_other by reflexivity.
    now rewrite values_set_same.
  - unfold Hdr.get.
    rewrite values_delete_other by reflexivity.
    now rewrite values_set_same.
  - apply get_delete_same.
  - intros m H1 H2 H3.
    rewrite values_delete_other by assumption.
    rewrite values_set_other by assumption.
    now apply values_set_other.
Qed.

(** The middleware touches the response in its Link header only: the
    status, the body and the values of every other header are those the
    rest of the chain left, and so are the bindings, the request and the
    URLs stored by the gate. *)
Theorem headersMiddleware_leaves_the_rest
    (c c1 c2 : Context) (next : Next) (r : URL) :
  next (robots c) = Returned c1 ->
  new_URL (req_url c1) None = Some r ->
  headersMiddleware new_URL c next = Returned c2 ->
  status (res c2) = status (res c1) /\
  body (res c2) = body (res c1) /\
  env c2 = env c1 /\ req_url c2 = req_url c1 /\
  req_headers c2 = req_headers c1 /\
  requestURL c2 = requestURL c1 /\ targetURL c2 = targetURL c1 /\
  forall m,
    Hdr.same_name "Link" m = false ->
    Hdr.values (headers (res c2)) m = Hdr.values (headers (res c1)) m.
Proof.
  intros Hn Hr H.
  destruct (headersMiddleware_result c c1 c2 next r Hn Hr H)
    as [-> | [link ->]]; repeat split.
  intros m Hm. cbn [c_header with_headers with_res res headers forwarded
                      set_forwardHeaders].
  now apply values_set_other.
Qed.

(** The forwarded headers are stored after the rest of the chain has
    run: the context handed to [next] has [forwardHeaders] as on entry.
    So what the rest of the chain would do on a context with other
    forwarded headers does not matter: two chains that agree on the
    contexts whose [forwardHeaders] is the one on entry give the same
    outcome. *)
Theorem headersMiddleware_forward_headers_come_late
    (c : Context) (next next' : Next) :
  (forall c', forwardHeaders c' = forwardHeaders c -> next c' = next' c') ->
  headersMiddleware new_URL c next = headersMiddleware new_URL c next'.
Proof.
  intros H. unfold headersMiddleware. fold (robots c).
  now rewrite (H (robots c) eq_refl).
Qed.

End HeadersMore.

(** ** The CORS origin of src/factory.ts *)

(** The origin callback compares the Origin header with the raw
    [ALIAS_DOMAIN] string.  An alias configured without a scheme, which
    the gate accepts by putting [https://] in front, allows no origin
    that starts with [http://] or [https://]. *)
Theorem cors_origin_needs_scheme (origin : string) (c : Context) :
  JS.has_http_scheme (ALIAS_DOMAIN (env c)) = false ->
  JS.has_http_scheme origin = true ->
  cors_origin origin c = None.
Proof.
  intros Ha Ho. unfold cors_origin.
  destruct (String.eqb (ALIAS_DOMAIN (env c)) origin) eqn:E; [|reflexivity].
  apply String.eqb_eq in E. congruence.
Qed.

(** ** The further properties on the requests of the tests *)

Lemma normailzeUrl_default_scheme_witness :
  normailzeUrl Whatwg.new_URL (inr "httpbin.org")
  = normailzeUrl Whatwg.new_URL (inr ("https://" ++ "httpbin.org")).
Proof. apply normailzeUrl_default_scheme. reflexivity. Defined.

(** a target domain with a space in it does not parse *)
Lemma preMiddleware_configuration_error_witness :
  preMiddleware Whatwg.new_URL
    (request (mkEnv "test.example.com" "bad domain" "test")
       "https://unauthorized.com/test" [])
    success
  = Thrown TypeError.
Proof.
  apply (preMiddleware_configuration_error Whatwg.new_URL _ success
           (url_of "https://unauthorized.com/test")).
  - vm_compute. reflexivity.
  - right. exists (url_of "https://test.example.com"). split.
    + vm_compute. reflexivity.
    + vm_compute. reflexivity.
Defined.

Lemma preMiddleware_target_url_witness :
  exists c' t',
    preMiddleware Whatwg.new_URL local_request success = success c' /\
    targetURL c' = Some t' /\
    protocol t' = "https:" /\ host t' = "www.origin-site.com" /\
    pathname t' = "/page" /\ search t' = "?x=1".
Proof.
  destruct (preMiddleware_target_url Whatwg.new_URL local_request success
              (url_of "http://localhost:8787/page?x=1")
              (url_of "https://localhost")
              (url_of "https://www.origin-site.com")
              ltac:(vm_compute; reflexivity)
              ltac:(vm_compute; reflexivity)
              ltac:(vm_compute; reflexivity)
              ltac:(vm_compute; reflexivity))
    as (c' & t' & H & _ & Ht & Hp & Hh & _ & Hs & Hpath & _).
  exists c', t'.
  split; [exact H|]. split; [exact Ht|].
  split; [rewrite Hp; vm_compute; reflexivity|].
  split; [rewrite Hh; vm_compute; reflexivity|].
  split; [|rewrite Hs; vm_compute; reflexivity].
  rewrite Hpath; vm_compute; reflexivity.
Defined.

Lemma preMiddleware_www_is_another_host_witness :
  preMiddleware Whatwg.new_URL
    (request test_env "https://www.test.example.com/test" []) success
  = Returned
      (c_text (request test_env "https://www.test.example.com/test" [])
              "Not allowed" 403).
Proof.
  apply (preMiddleware_www_is_another_host Whatwg.new_URL _ success
           (url_of "https://www.test.example.com/test")
           (url_of "https://test.example.com")
           (url_of "https://httpbin.org")).
  - vm_compute. reflexivity.
  - vm_compute. reflexivity.
  - vm_compute. reflexivity.
  - vm_compute. reflexivity.
Defined.

(** the chain of the unit tests of [postMiddleware]: no gate before it *)
Lemma postMiddleware_without_target_url_witness :
  postMiddleware Whatwg.new_URL (plain_request test_env) redirect
  = Thrown TypeError.
Proof.
  apply (postMiddleware_without_target_url Whatwg.new_URL
           (plain_request test_env)
           (with_res (plain_request test_env)
              (mkResponse 302
                 [("Location", "https://httpbin.org/redirect-target")]
                 EmptyString))
           redirect).
  - reflexivity.
  - reflexivity.
Defined.

Lemma postMiddleware_leaves_the_rest_witness :
  exists c2,
    postMiddleware Whatwg.new_URL (gated (plain_request test_env))
      (respond 201
         [("Content-Type", "text/html"); ("Location", "/next");
          ("Cache-Control", "no-store"); ("content-type", "charset=utf-8")]
         "created")
    = Returned c2 /\
    status (res c2) = 201 /\ body (res c2) = "created" /\
    Hdr.get (headers (res c2)) "Content-Type"
    = Some "text/html, charset=utf-8" /\
    Hdr.get (headers (res c2)) "cache-control" = Some "no-store".
Proof.
  destruct (postMiddleware_leaves_the_rest Whatwg.new_URL
              (gated (plain_request test_env))
              (with_res (gated (plain_request test_env))
                 (mkResponse 201
                    [("Content-Type", "text/html"); ("Location", "/next");
                     ("Cache-Control", "no-store");
                     ("content-type", "charset=utf-8")]
                    "created"))
              (respond 201
                 [("Content-Type", "text/html"); ("Location", "/next");
                  ("Cache-Control", "no-store");
                  ("content-type", "charset=utf-8")]
                 "created")
              (url_of "https://httpbin.org/test")
              eq_refl eq_refl)
    as (c2 & H & Hs & Hb & _ & _ & _ & _ & _ & _ & Hv).
  exists c2. split; [exact H|].
  split; [rewrite Hs; reflexivity|].
  split; [rewrite Hb; reflexivity|].
  unfold Hdr.get.
  split; rewrite Hv by reflexivity; reflexivity.
Defined.

Lemma postMiddleware_cookies_one_by_one_witness :
  exists c2,
    postMiddleware Whatwg.new_URL (gated (plain_request test_env))
      (respond 200
         [("Set-Cookie", "session=abc123; Domain=www.httpbin.org; Path=/");
          ("Content-Type", "text/plain");
          ("set-cookie", "lang=en; Path=/")]
         "success")
    = Returned c2 /\
    Hdr.getSetCookie (headers (res c2))
    = ["session=abc123; Domain=httpbin.org; Path=/"; "lang=en; Path=/"].
Proof.
  destruct (postMiddleware_cookies_one_by_one Whatwg.new_URL
              (gated (plain_request test_env))
              (with_res (gated (plain_request test_env))
                 (mkResponse 200
                    [("Set-Cookie",
                      "session=abc123; Domain=www.httpbin.org; Path=/");
                     ("Content-Type", "text/plain");
                     ("set-cookie", "lang=en; Path=/")]
                    "success"))
              (respond 200
                 [("Set-Cookie",
                   "session=abc123; Domain=www.httpbin.org; Path=/");
                  ("Content-Type", "text/plain");
                  ("set-cookie", "lang=en; Path=/")]
                 "success")
              (url_of "https://httpbin.org/test")
              eq_refl eq_refl)
    as (c2 & H & Hc).
  exists c2. split; [exact H|]. rewrite Hc. vm_compute. reflexivity.
Defined.

Lemma post_set_cookie_without_cookies_witness :
  post_set_cookie "httpbin.org"
    [("Content-Type", "text/html"); ("Cookie", "a=b; Domain=x")]
  = [("Content-Type", "text/html"); ("Cookie", "a=b; Domain=x")].
Proof. apply post_set_cookie_without_cookies. reflexivity. Defined.

Lemma postMiddleware_location_components_witness :
  exists c2 u',
    postMiddleware Whatwg.new_URL (gated (plain_request test_env))
      (respond 301
         [("Location", "http://user:pw@www.httpbin.org:8080/a/b?x=1#top")]
         EmptyString)
    = Returned c2 /\
    Hdr.get (headers (res c2)) "Location" = Some (toString u') /\
    url_scheme u' = "http" /\ url_port u' = Some "8080" /\
    url_path u' = "/a/b" /\ url_query u' = Some "x=1" /\
    url_fragment u' = Some "top".
Proof.
  destruct (postMiddleware_location_components Whatwg.new_URL
              (gated (plain_request test_env))
              (with_res (gated (plain_request test_env))
                 (mkResponse 301
                    [("Location",
                      "http://user:pw@www.httpbin.org:8080/a/b?x=1#top")]
                    EmptyString))
              (respond 301
                 [("Location",
                   "http://user:pw@www.httpbin.org:8080/a/b?x=1#top")]
                 EmptyString)
              (url_of "https://httpbin.org/test")
              (url_of "http://user:pw@www.httpbin.org:8080/a/b?x=1#top")
              "http://user:pw@www.httpbin.org:8080/a/b?x=1#top"
              eq_refl eq_refl eq_refl
              ltac:(discriminate)
              ltac:(vm_compute; reflexivity)
              ltac:(vm_compute; reflexivity))
    as (c2 & u' & H & Hl & Hs & _ & _ & Hp & Hpath & Hq & Hf).
  exists c2, u'. split; [exact H|]. split; [exact Hl|].
  rewrite Hs, Hp, Hpath, Hq, Hf. vm_compute. repeat split.
Defined.

Lemma postMiddleware_location_untouched_witness :
  exists c2,
    postMiddleware Whatwg.new_URL (gated (plain_request test_env))
      (respond 302 [("Location", "https://login.example.net/sso")] EmptyString)
    = Returned c2 /\
    Hdr.values (headers (res c2)) "Location"
    = ["https://login.example.net/sso"].
Proof.
  destruct (postMiddleware_location_untouched Whatwg.new_URL
              (gated (plain_request test_env))
              (with_res (gated (plain_request test_env))
                 (mkResponse 302
                    [("Location", "https://login.example.net/sso")]
                    EmptyString))
              (respond 302
                 [("Location", "https://login.example.net/sso")] EmptyString)
              (url_of "https://httpbin.org/test")
              eq_refl eq_refl)
    as (c2 & H & Hv).
  - right. exists "https://login.example.net/sso". split; [reflexivity|].
    right. exists (url_of "https://login.example.net/sso").
    split; vm_compute; reflexivity.
  - exists c2. split; [exact H|]. rewrite Hv. reflexivity.
Defined.

Lemma headersMiddleware_forward_headers_witness :
  exists hdr,
    Hdr.get hdr "X-Forwarded-Host" = Some "localhost:8787" /\
    Hdr.get hdr "X-Forwarded-Proto" = Some "https" /\
    Hdr.get hdr "Accept-Encoding" = None /\
    Hdr.get hdr "Accept" = Some "text/html".
Proof.
  destruct (headersMiddleware_forward_headers Whatwg.new_URL
              (request local_env "http://localhost:8787/page?x=1"
                 [("Accept-Encoding", "gzip, deflate");
                  ("Accept", "text/html")])
              (with_res
                 (robots
                    (request local_env "http://localhost:8787/page?x=1"
                       [("Accept-Encoding", "gzip, deflate");
                        ("Accept", "text/html")]))
                 (mkResponse 200 [] "success"))
              (forwarded
                 (with_res
                    (robots
                       (request local_env "http://localhost:8787/page?x=1"
                          [("Accept-Encoding", "gzip, deflate");
                           ("Accept", "text/html")]))
                    (mkResponse 200 [] "success"))
                 (url_of "http://localhost:8787/page?x=1"))
              success
              (url_of "http://localhost:8787/page?x=1")
              eq_refl
              ltac:(vm_compute; reflexivity)
              ltac:(vm_compute; reflexivity))
    as (hdr & _ & H1 & H2 & H3 & Hv).
  exists hdr. split; [rewrite H1; vm_compute; reflexivity|].
  split; [exact H2|]. split; [exact H3|].
  unfold Hdr.get. rewrite Hv by reflexivity. reflexivity.
Defined.

Lemma headersMiddleware_leaves_the_rest_witness :
  exists c2,
    headersMiddleware Whatwg.new_URL (html_request full_env)
      (respond 404 [("Content-Type", "text/html"); ("Link", "</a>; rel=next")]
               "missing")
    = Returned c2 /\
    status (res c2) = 404 /\ body (res c2) = "missing" /\
    Hdr.values (headers (res c2)) "content-type" = ["text/html"].
Proof.
  assert (E : exists c2,
             headersMiddleware Whatwg.new_URL (html_request full_env)
               (respond 404
                  [("Content-Type", "text/html"); ("Link", "</a>; rel=next")]
                  "missing")
             = Returned c2).
  { eexists. vm_compute. reflexivity. }
  destruct E as [c2 E]. exists c2. split; [exact E|].
  destruct (headersMiddleware_leaves_the_rest Whatwg.new_URL
              (html_request full_env)
              (with_res (robots (html_request full_env))
                 (mkResponse 404
                    [("Content-Type", "text/html");
                     ("Link", "</a>; rel=next")]
                    "missing"))
              c2
              (respond 404
                 [("Content-Type", "text/html"); ("Link", "</a>; rel=next")]
                 "missing")
              (url_of "https://test.example.com/test")
              eq_refl
              ltac:(vm_compute; reflexivity)
              E)
    as (Hs & Hb & _ & _ & _ & _ & _ & Hv).
  split; [rewrite Hs; reflexivity|].
  split; [rewrite Hb; reflexivity|].
  rewrite Hv by reflexivity. reflexivity.
Defined.

(** the handler of the unit test 'should set forward headers correctly'
    reads [forwardHeaders]; it fares as a handler that finds none *)
Lemma headersMiddleware_forward_headers_come_late_witness :
  headersMiddleware Whatwg.new_URL (plain_request test_env)
    (fun c =>
       Returned
         (with_res c
            (mkResponse 200 []
               (match forwardHeaders c with
                | Some h =>
                    match Hdr.get h "X-Forwarded-Host" with
                    | Some v => v
                    | None => "null"
                    end
                | None => "undefined"
                end))))
  = headersMiddleware Whatwg.new_URL (plain_request test_env)
      (fun c => Returned (with_res c (mkResponse 200 [] "undefined"))).
Proof.
  apply headersMiddleware_forward_headers_come_late.
  intros c' H. simpl in H. rewrite H. reflexivity.
Defined.

Lemma cors_origin_needs_scheme_witness :
  cors_origin "https://test.example.com" (plain_request test_env) = None.
Proof. apply cors_origin_needs_scheme; reflexivity. Defined.

(** ** The gate and [postMiddleware] in one chain *)

Section Chain.

Variable new_URL : string -> option string -> option URL.

(** With the gate in front, [postMiddleware] finds the target URL it
    needs: for an accepted request and a handler that answers and leaves
    the context variables alone, the chain returns, and the response has
    been through [postMiddleware]. *)
Theorem gate_then_postMiddleware
    (c c1 : Context) (handler : Next) (r a t : URL) :
  new_URL (req_url c) None = Some r ->
  normailzeUrl new_URL (inr (ALIAS_DOMAIN (env c))) = Returned a ->
  normailzeUrl new_URL (inr (TARGET_DOMAIN (env c))) = Returned t ->
  hostname r = hostname a ->
  handler (set_targetURL (set_requestURL c r)
             (set_search (set_pathname t (pathname r)) (search r)))
  = Returned c1 ->
  targetURL c1 =
  Some (set_search (set_pathname t (pathname r)) (search r)) ->
  exists c2,
    preMiddleware new_URL c (fun c' => postMiddleware new_URL c' handler)
    = Returned c2 /\
    status (res c2) = status (res c1) /\ body (res c2) = body (res c1) /\
    Hdr.get (headers (res c2)) "Strict-Transport-Security" = None.
Proof.
  intros Hr Ha Ht Hh Hn Hv.
  rewrite (preMiddleware_parsed new_URL c _ r a t Hr Ha Ht).
  apply String.eqb_eq in Hh. rewrite Hh.
  rewrite (postMiddleware_returns new_URL _ c1 handler _ Hn Hv).
  eexists. split; [reflexivity|].
  repeat split. apply get_delete_same.
Qed.

(** With [postMiddleware] around the gate, the 403 of the gate does not
    leave: the gate answers without setting [targetURL], and
    [postMiddleware] throws on reading it. *)
Theorem postMiddleware_around_gate
    (c : Context) (handler : Next) (r a t : URL) :
  new_URL (req_url c) None = Some r ->
  normailzeUrl new_URL (inr (ALIAS_DOMAIN (env c))) = Returned a ->
  normailzeUrl new_URL (inr (TARGET_DOMAIN (env c))) = Returned t ->
  hostname r <> hostname a ->
  targetURL c = None ->
  postMiddleware new_URL c (fun c' => preMiddleware new_URL c' handler)
  = Thrown TypeError.
Proof.
  intros Hr Ha Ht Hh Hv. unfold postMiddleware.
  rewrite (preMiddleware_parsed new_URL c handler r a t Hr Ha Ht).
  apply String.eqb_neq in Hh. rewrite Hh. cbn [bind].
  change (targetURL (c_text c "Not allowed" 403)) with (targetURL c).
  now rewrite Hv.
Qed.

(** The Content-Security-Policy values of a response in which the
    target domain occurs leave as one header: the values joined by a
    comma and a space, after the replacement. *)
Theorem postMiddleware_csp_single_header
    (c c1 : Context) (next : Next) (t : URL) (csp : string) :
  next c = Returned c1 -> targetURL c1 = Some t ->
  Hdr.get (headers (res c1)) "Content-Security-Policy" = Some csp ->
  JS.includes csp (TARGET_DOMAIN (env c1)) = true ->
  exists c2,
    postMiddleware new_URL c next = Returned c2 /\
    Hdr.values (headers (res c2)) "Content-Security-Policy" =
    [JS.replaceAll csp (TARGET_DOMAIN (env c1)) (TARGET_DOMAIN (env c1))].
Proof.
  intros Hn Ht Hc Hi. eexists. split.
  - apply (postMiddleware_returns new_URL c c1 next t Hn Ht).
  - cbn [with_headers with_res res headers].
    rewrite values_delete_other by reflexivity.
    assert (E : Hdr.get
                  (post_set_cookie (TARGET_DOMAIN (env c1))
                     (post_location new_URL (hostname t) (headers (res c1))))
                  "Content-Security-Policy" = Some csp).
    { rewrite <- Hc. apply get_of_values.
      rewrite post_set_cookie_other by reflexivity.
      now rewrite post_location_other by reflexivity. }
    unfold post_csp. rewrite E, Hi. apply values_set_same.
Qed.

(** On an HTML request the Link header of the response is the canonical
    link alone: Link values written by the rest of the chain are gone.
    The URL in it has the scheme, host and port of the target domain
    and the query of the request. *)
Theorem headersMiddleware_link_alone
    (c c1 : Context) (next : Next) (r m : URL) (ct : string) :
  next (robots c) = Returned c1 ->
  new_URL (req_url c1) None = Some r ->
  Hdr.get (req_headers c1) "content-type" = Some ct ->
  JS.includes ct "text/html" = true ->
  new_URL (TARGET_DOMAIN (env c1)) None = Some m ->
  exists c2 u,
    headersMiddleware new_URL c next = Returned c2 /\
    Hdr.values (headers (res c2)) "Link" = [canonical_link_of u] /\
    protocol u = protocol m /\ host u = host m /\ search u = search r.
Proof.
  intros Hn Hr Hc Hi Hm.
  exists (c_header (forwarded c1 r) "Link"
            (canonical_link_of
               (set_search (set_pathname m (pathname r)) (search r)))),
         (set_search (set_pathname m (pathname r)) (search r)).
  split; [|split].
  - unfold headersMiddleware. fold (robots c).
    rewrite Hn. cbn [bind]. rewrite Hr. cbn [of_option bind].
    cbn [set_forwardHeaders req_headers env req_url].
    rewrite Hc, Hi, Hm. cbn [of_option bind].
    rewrite Hr. cbn [of_option bind]. reflexivity.
  - cbn [c_header with_headers with_res res headers].
    apply values_set_same.
  - destruct (set_pathname_keeps m (pathname r)) as (P1 & P2 & _).
    destruct (set_search_keeps (set_pathname m (pathname r)) (search r))
      as (S1 & S2 & _).
    split; [now rewrite S1|]. split; [now rewrite S2|].
    apply search_set_search.
Qed.

(** X-Robots-Tag is written before the rest of the chain runs: it is in
    the response whenever the rest of the chain leaves that header as it
    found it. *)
Theorem headersMiddleware_robots
    (c c1 c2 : Context) (next : Next) (r : URL) :
  next (robots c) = Returned c1 ->
  Hdr.values (headers (res c1)) "X-Robots-Tag" =
  Hdr.values (headers (res (robots c))) "X-Robots-Tag" ->
  new_URL (req_url c1) None = Some r ->
  headersMiddleware new_URL c next = Returned c2 ->
  Hdr.get (headers (res c2)) "X-Robots-Tag" =
  Some "noindex, nofollow, noarchive, nosnippet".
Proof.
  intros Hn Hk Hr H.
  destruct (headersMiddleware_result new_URL c c1 c2 next r Hn Hr H)
    as [-> | [link ->]];
    cbn [c_header forwarded set_forwardHeaders with_headers with_res
         res headers];
    unfold Hdr.get; [|rewrite values_set_other by reflexivity];
    rewrite Hk; unfold robots, c_header;
    cbn [with_headers with_res res headers];
    now rewrite values_set_same.
Qed.

End Chain.

Lemma gate_then_postMiddleware_witness :
  exists c2,
    pre_post hsts_and_csp (plain_request test_env) = Returned c2 /\
    status (res c2) = 200 /\ body (res c2) = "success" /\
    Hdr.get (headers (res c2)) "Strict-Transport-Security" = None.
Proof.
  destruct (gate_then_postMiddleware Whatwg.new_URL
              (plain_request test_env)
              (with_res
                 (set_targetURL
                    (set_requestURL (plain_request test_env)
                       (url_of "https://test.example.com/test"))
                    (url_of "https://httpbin.org/test"))
                 (mkResponse 200
                    [("Content-Security-Policy",
                      "default-src 'self' httpbin.org");
                     ("Strict-Transport-Security", "max-age=31536000")]
                    "success"))
              hsts_and_csp
              (url_of "https://test.example.com/test")
              (url_of "https://test.example.com")
              (url_of "https://httpbin.org")
              ltac:(vm_compute; reflexivity)
              ltac:(vm_compute; reflexivity)
              ltac:(vm_compute; reflexivity)
              ltac:(vm_compute; reflexivity)
              ltac:(vm_compute; reflexivity)
              ltac:(vm_compute; reflexivity))
    as (c2 & H & Hs & Hb & Hh).
  exists c2. split; [exact H|].
  split; [rewrite Hs; reflexivity|].
  split; [rewrite Hb; reflexivity | exact Hh].
Defined.

Lemma postMiddleware_around_gate_witness :
  postMiddleware Whatwg.new_URL unauthorized_request
    (fun c' => preMiddleware Whatwg.new_URL c' success)
  = Thrown TypeError.
Proof.
  apply (postMiddleware_around_gate Whatwg.new_URL unauthorized_request
           success
           (url_of "https://unauthorized.com/test")
           (url_of "https://test.example.com")
           (url_of "https://httpbin.org")).
  - vm_compute. reflexivity.
  - vm_compute. reflexivity.
  - vm_compute. reflexivity.
  - vm_compute. discriminate.
  - reflexivity.
Defined.

Lemma postMiddleware_csp_single_header_witness :
  exists c2,
    postMiddleware Whatwg.new_URL (gated (plain_request test_env))
      (respond 200
         [("Content-Security-Policy", "default-src 'self' httpbin.org");
          ("content-security-policy", "img-src cdn.example.net")]
         "success")
    = Returned c2 /\
    Hdr.values (headers (res c2)) "Content-Security-Policy"
    = ["default-src 'self' httpbin.org, img-src cdn.example.net"].
Proof.
  destruct (postMiddleware_csp_single_header Whatwg.new_URL
              (gated (plain_request test_env))
              (with_res (gated (plain_request test_env))
                 (mkResponse 200
                    [("Content-Security-Policy",
                      "default-src 'self' httpbin.org");
                     ("content-security-policy", "img-src cdn.example.net")]
                    "success"))
              (respond 200
                 [("Content-Security-Policy",
                   "default-src 'self' httpbin.org");
                  ("content-security-policy", "img-src cdn.example.net")]
                 "success")
              (url_of "https://httpbin.org/test")
              "default-src 'self' httpbin.org, img-src cdn.example.net"
              eq_refl eq_refl
              ltac:(vm_compute; reflexivity)
              ltac:(vm_compute; reflexivity))
    as (c2 & H & Hv).
  exists c2. split; [exact H|]. rewrite Hv. vm_compute. reflexivity.
Defined.

Lemma headersMiddleware_link_alone_witness :
  exists c2 u,
    headersMiddleware Whatwg.new_URL
      (request full_env "https://test.example.com/a/b?x=1#top"
         [("Content-Type", "text/html; charset=utf-8")])
      (respond 200 [("Link", "</next>; rel=next")] "success")
    = Returned c2 /\
    Hdr.values (headers (res c2)) "Link" = [canonical_link_of u] /\
    protocol u = "https:" /\ host u = "httpbin.org" /\ search u = "?x=1".
Proof.
  destruct (headersMiddleware_link_alone Whatwg.new_URL
              (request full_env "https://test.example.com/a/b?x=1#top"
                 [("Content-Type", "text/html; charset=utf-8")])
              (with_res
                 (robots
                    (request full_env "https://test.example.com/a/b?x=1#top"
                       [("Content-Type", "text/html; charset=utf-8")]))
                 (mkResponse 200 [("Link", "</next>; rel=next")] "success"))
              (respond 200 [("Link", "</next>; rel=next")] "success")
              (url_of "https://test.example.com/a/b?x=1#top")
              (url_of "https://httpbin.org")
              "text/html; charset=utf-8"
              eq_refl
              ltac:(vm_compute; reflexivity)
              ltac:(vm_compute; reflexivity)
              ltac:(vm_compute; reflexivity)
              ltac:(vm_compute; reflexivity))
    as (c2 & u & H & Hv & Hp & Hh & Hs).
  exists c2, u. split; [exact H|]. split; [exact Hv|].
  rewrite Hp, Hh, Hs. vm_compute. repeat split.
Defined.

Lemma headersMiddleware_robots_witness :
  exists c2,
    headersMiddleware Whatwg.new_URL (html_request full_env)
      (fun c => Returned c)
    = Returned c2 /\
    Hdr.get (headers (res c2)) "X-Robots-Tag" =
    Some "noindex, nofollow, noarchive, nosnippet".
Proof.
  assert (E : exists c2,
             headersMiddleware Whatwg.new_URL (html_request full_env)
               (fun c => Returned c) = Returned c2).
  { eexists. vm_compute. reflexivity. }
  destruct E as [c2 E]. exists c2. split; [exact E|].
  apply (headersMiddleware_robots Whatwg.new_URL (html_request full_env)
           (robots (html_request full_env)) c2 (fun c => Returned c)
           (url_of "https://test.example.com/test")).
  - reflexivity.
  - reflexivity.
  - vm_compute. reflexivity.
  - exact E.
Defined.

(** ** The parser on plain URL strings *)

Lemma forall_chars_app (p : ascii -> bool) (a b : string) :
  forall_chars p (a ++ b) = forall_chars p a && forall_chars p b.
Proof.
  induction a as [|c a IH]; simpl; [reflexivity|].
  now rewrite IH, andb_assoc.
Qed.

Lemma forall_chars_impl (p q : ascii -> bool) (s : string) :
  (forall c, p c = true -> q c = true) ->
  forall_chars p s = true -> forall_chars q s = true.
Proof.
  intros H. induction s as [|c s IH]; simpl; [reflexivity|].
  intros E. apply andb_true_iff in E as [E1 E2].
  now rewrite (H c E1), (IH E2).
Qed.

Lemma span_all (p : ascii -> bool) (s : string) :
  forall_chars p s = true -> span p s = (s, EmptyString).
Proof.
  induction s as [|c s IH]; simpl; [reflexivity|].
  intros E. apply andb_true_iff in E as [E1 E2].
  now rewrite E1, (IH E2).
Qed.

Lemma span_app (p : ascii -> bool) (a b : string) :
  forall_chars p a = true ->
  match b with
  | EmptyString => True
  | String c _ => p c = false
  end ->
  span p (a ++ b) = (a, b).
Proof.
  intros Ha Hb. induction a as [|c a IH]; simpl in *.
  - destruct b as [|d b]; [reflexivity|]. simpl. now rewrite Hb.
  - apply andb_true_iff in Ha as [E1 E2].
    now rewrite E1, (IH E2).
Qed.

Lemma filter_string_all (p : ascii -> bool) (s : string) :
  forall_chars p s = true -> Whatwg.filter_string p s = s.
Proof.
  induction s as [|c s IH]; simpl; [reflexivity|].
  intros E. apply andb_true_iff in E as [E1 E2].
  now rewrite E1, (IH E2).
Qed.

Lemma filter_string_none (p : ascii -> bool) (s : string) :
  forall_chars (fun c => negb (p c)) s = true ->
  Whatwg.filter_string p s = EmptyString.
Proof.
  induction s as [|c s IH]; simpl; [reflexivity|].
  intros E. apply andb_true_iff in E as [E1 E2].
  apply negb_true_iff in E1. now rewrite E1, (IH E2).
Qed.

Lemma percent_encode_plain (inset : ascii -> bool) (s : string) :
  forall_chars (fun c => negb (inset c)) s = true ->
  Whatwg.percent_encode inset s = s.
Proof.
  induction s as [|c s IH]; simpl; [reflexivity|].
  intros E. apply andb_true_iff in E as [E1 E2].
  apply negb_true_iff in E1. rewrite E1. f_equal. now apply IH.
Qed.

Lemma toLowerASCII_lower (s : string) :
  forall_chars (fun c => Ascii.eqb (JS.lower_ascii c) c) s = true ->
  JS.toLowerASCII s = s.
Proof.
  induction s as [|c s IH]; simpl; [reflexivity|].
  intros E. apply andb_true_iff in E as [E1 E2].
  apply Ascii.eqb_eq in E1. rewrite E1. f_equal. now apply IH.
Qed.

Lemma rev_string_rev (s a b : string) :
  Whatwg.rev_string (Whatwg.rev_string s a) b = Whatwg.rev_string a (s ++ b).
Proof.
  revert a. induction s as [|c s IH]; intros a; simpl; [reflexivity|].
  now rewrite IH.
Qed.

Lemma forall_chars_rev (p : ascii -> bool) (s a : string) :
  forall_chars p (Whatwg.rev_string s a)
  = forall_chars p s && forall_chars p a.
Proof.
  revert a. induction s as [|c s IH]; intros a; simpl; [reflexivity|].
  rewrite IH. simpl.
  destruct (p c), (forall_chars p s), (forall_chars p a); reflexivity.
Qed.

Lemma drop_while_none (p : ascii -> bool) (s : string) :
  forall_chars (fun c => negb (p c)) s = true ->
  Whatwg.drop_while p s = s.
Proof.
  unfold Whatwg.drop_while. destruct s as [|c s]; simpl; [reflexivity|].
  intros E. apply andb_true_iff in E as [E1 _].
  apply negb_true_iff in E1. now rewrite E1.
Qed.

Lemma drop_while_cons (p : ascii -> bool) (c : ascii) (s : string) :
  p c = true -> Whatwg.drop_while p (String c s) = Whatwg.drop_while p s.
Proof.
  intros H. unfold Whatwg.drop_while. simpl. rewrite H.
  now destruct (span p s).
Qed.

Lemma above_space_no_tab (c : ascii) :
  negb (Whatwg.is_c0_or_space c) = true ->
  negb (Whatwg.is_tab_or_newline c) = true.
Proof.
  destruct c as [[] [] [] [] [] [] [] []]; vm_compute; intros H;
    try reflexivity; discriminate H.
Qed.

(** a string without controls and spaces is clean *)
Lemma clean_id (s : string) :
  forall_chars (fun c => negb (Whatwg.is_c0_or_space c)) s = true ->
  Whatwg.clean s = s.
Proof.
  intros H. unfold Whatwg.clean.
  rewrite (drop_while_none _ s H).
  rewrite drop_while_none
    by (rewrite forall_chars_rev, H; reflexivity).
  rewrite rev_string_rev. simpl. rewrite append_nil_r.
  apply filter_string_all.
  apply (forall_chars_impl _ _ s above_space_no_tab H).
Qed.

Lemma cut_component (d : ascii) (a : string) (o : option string) :
  forall_chars (fun c => negb (Ascii.eqb c d)) a = true ->
  Whatwg.cut d (a ++ component (String d EmptyString) o) = (a, o).
Proof.
  intros H. unfold Whatwg.cut.
  rewrite (span_app _ a (component (String d EmptyString) o) H).
  - destruct o; reflexivity.
  - destruct o; simpl; [|exact I]. now rewrite Ascii.eqb_refl.
Qed.

Ltac by_cases c :=
  destruct c as [[] [] [] [] [] [] [] []]; vm_compute; intros H;
  try discriminate H; repeat split.

Lemma host_char_facts (c : ascii) :
  host_char c = true ->
  negb (Whatwg.is_c0_or_space c) = true /\
  negb (Ascii.eqb c "#") = true /\
  negb (Ascii.eqb c "?") = true /\
  negb (Ascii.eqb c "@") = true /\
  negb (Whatwg.is_sep true c) = true /\
  negb ((Ascii.eqb c ":" && negb false) || is_host_end true c) = true /\
  Ascii.eqb c "[" = false /\ Ascii.eqb c "]" = false /\
  negb (Whatwg.forbidden_domain c) = true /\
  Ascii.eqb (JS.lower_ascii c) c = true.
Proof. by_cases c. Qed.

Lemma plain_char_facts (c : ascii) :
  plain_char c = true ->
  negb (Whatwg.is_c0_or_space c) = true /\
  negb (Ascii.eqb c "#") = true /\
  negb (Ascii.eqb c "?") = true /\
  negb (Whatwg.in_fragment_set c) = true /\
  negb (Whatwg.in_query_set true c) = true.
Proof. by_cases c. Qed.

Lemma path_char_facts (c : ascii) :
  path_char c = true ->
  negb (Whatwg.is_c0_or_space c) = true /\
  negb (Ascii.eqb c "#") = true /\
  negb (Ascii.eqb c "?") = true /\
  negb (Whatwg.in_path_set c) = true /\
  Whatwg.is_sep true c = Ascii.eqb c "/".
Proof. by_cases c. Qed.

Lemma split_on_ext (p q : ascii -> bool) (s : string) :
  forall_chars (fun c => Bool.eqb (p c) (q c)) s = true ->
  Whatwg.split_on p s = Whatwg.split_on q s.
Proof.
  induction s as [|c s IH]; simpl; [reflexivity|].
  intros E. apply andb_true_iff in E as [E1 E2].
  apply Bool.eqb_prop in E1. now rewrite E1, (IH E2).
Qed.

Lemma split_on_chars (P p : ascii -> bool) (s : string) :
  forall_chars P s = true ->
  forallb (forall_chars P) (Whatwg.split_on p s) = true.
Proof.
  induction s as [|c s IH]; simpl; [reflexivity|].
  intros E. apply andb_true_iff in E as [E1 E2].
  specialize (IH E2).
  destruct (p c); simpl; [assumption|].
  destruct (Whatwg.split_on p s) as [|x r]; simpl in *.
  - now rewrite E1.
  - apply andb_true_iff in IH as [I1 I2]. now rewrite E1, I1, I2.
Qed.

Lemma serialize_split (s : string) :
  Whatwg.serialize_path (Whatwg.split_on (fun c => Ascii.eqb c "/") s)
  = "/" ++ s.
Proof.
  induction s as [|c s IH]; [reflexivity|].
  cbn [Whatwg.split_on].
  destruct (Ascii.eqb c "/") eqn:E.
  - apply Ascii.eqb_eq in E. subst c.
    cbn [Whatwg.serialize_path fold_right]. 
    change (fold_right (fun seg r => "/" ++ seg ++ r) EmptyString
              (Whatwg.split_on (fun c => Ascii.eqb c "/") s))
      with (Whatwg.serialize_path
              (Whatwg.split_on (fun c => Ascii.eqb c "/") s)).
    rewrite IH. reflexivity.
  - destruct (Whatwg.split_on (fun c0 => Ascii.eqb c0 "/") s) as [|x r].
    + discriminate IH.
    + cbn [Whatwg.serialize_path fold_right] in *.
      simpl in IH. injection IH as IH. simpl. now rewrite IH.
Qed.

(** segments that are no dot segments and need no encoding are taken as
    they are *)
Lemma path_state_plain (segs acc : list string) :
  forallb (fun seg => negb (Whatwg.is_single_dot seg)
                      && negb (Whatwg.is_double_dot seg)) segs = true ->
  forallb (forall_chars (fun c => negb (Whatwg.in_path_set c))) segs = true ->
  Whatwg.path_state acc segs = (rev acc ++ segs)%list.
Proof.
  revert acc. induction segs as [|seg segs IH]; intros acc H1 H2; simpl.
  - now rewrite app_nil_r.
  - simpl in H1, H2.
    apply andb_true_iff in H1 as [D H1].
    apply andb_true_iff in D as [D1 D2].
    apply andb_true_iff in H2 as [P H2].
    apply negb_true_iff in D1. apply negb_true_iff in D2.
    rewrite D2, D1, (percent_encode_plain _ seg P), (IH _ H1 H2).
    simpl. now rewrite <- app_assoc.
Qed.

(** a path of plain characters without dot segments is its own
    normal form *)
Lemma absolute_path_plain (body : string) :
  forall_chars path_char body = true ->
  no_dot_segments body = true ->
  Whatwg.absolute_path true ("/" ++ body) = "/" ++ body.
Proof.
  intros Hc Hd. unfold Whatwg.absolute_path.
  change (JS.drop 1 ("/" ++ body)) with body.
  rewrite (split_on_ext (Whatwg.is_sep true) (fun c => Ascii.eqb c "/") body).
  - rewrite path_state_plain.
    + apply serialize_split.
    + exact Hd.
    + apply split_on_chars.
      apply (forall_chars_impl path_char _ body); [|exact Hc].
      intros c H. apply (path_char_facts c H).
  - apply (forall_chars_impl path_char _ body); [|exact Hc].
    intros c H. destruct (path_char_facts c H) as (_ & _ & _ & _ & E).
    rewrite E. apply Bool.eqb_reflx.
Qed.

Lemma span_host_plain (h : string) :
  forall_chars host_char h = true ->
  span_host true false h = (h, EmptyString).
Proof.
  induction h as [|c h IH]; simpl; [reflexivity|].
  intros E. apply andb_true_iff in E as [E1 E2].
  destruct (host_char_facts c E1) as (_ & _ & _ & _ & _ & F & B1 & B2 & _).
  apply negb_true_iff in F. simpl in F. rewrite F, B1, B2, (IH E2).
  reflexivity.
Qed.

Lemma parse_host_plain (h : string) :
  h <> EmptyString -> forall_chars host_char h = true ->
  Whatwg.parse_host "https" h = Some h.
Proof.
  intros Hne Hc. unfold Whatwg.parse_host.
  change (is_special "https") with true. cbv iota.
  assert (P : prefix "[" h = false).
  { destruct h as [|c h]; [congruence|].
    simpl in Hc. apply andb_true_iff in Hc as [E _].
    destruct (host_char_facts c E) as (_ & _ & _ & _ & _ & _ & B & _).
    cbn [prefix]. destruct (ascii_dec "[" c) as [<-|]; [discriminate|].
    reflexivity. }
  rewrite P.
  assert (E : String.eqb h EmptyString = false)
    by now apply String.eqb_neq.
  rewrite E. cbn [andb].
  unfold Whatwg.string_exists.
  rewrite filter_string_none.
  - cbn [String.eqb negb]. f_equal. apply toLowerASCII_lower.
    apply (forall_chars_impl host_char _ h); [|exact Hc].
    intros c H. apply (host_char_facts c H).
  - apply (forall_chars_impl host_char _ h); [|exact Hc].
    intros c H. apply (host_char_facts c H).
Qed.

Lemma split_scheme_https (x : string) :
  Whatwg.split_scheme ("https://" ++ x) = Some ("https", "//" ++ x).
Proof. reflexivity. Qed.

Lemma drop_while_head (p : ascii -> bool) (c : ascii) (s : string) :
  p c = false -> Whatwg.drop_while p (String c s) = String c s.
Proof. intros H. unfold Whatwg.drop_while. simpl. now rewrite H. Qed.

Lemma cut_last_none (d : ascii) (s : string) :
  forall_chars (fun c => negb (Ascii.eqb c d)) s = true ->
  Whatwg.cut_last d s = (None, s).
Proof.
  intros H. unfold Whatwg.cut_last, Whatwg.cut.
  rewrite span_all; [reflexivity|].
  rewrite forall_chars_rev, H. reflexivity.
Qed.

Lemma option_encode_plain (inset : ascii -> bool) (o : option string) :
  (forall c, plain_char c = true -> negb (inset c) = true) ->
  plain_component o = true ->
  option_map (Whatwg.percent_encode inset) o = o.
Proof.
  intros Hi H. destruct o as [s|]; [|reflexivity]. simpl in *.
  apply andb_true_iff in H as [_ H]. f_equal.
  apply percent_encode_plain.
  apply (forall_chars_impl plain_char _ s Hi H).
Qed.

Lemma component_chars (P : ascii -> bool) (d : ascii) (o : option string) :
  P d = true -> (forall c, plain_char c = true -> P c = true) ->
  plain_component o = true ->
  forall_chars P (component (String d EmptyString) o) = true.
Proof.
  intros Hd Hp H. destruct o as [s|]; [|reflexivity]. simpl in *.
  apply andb_true_iff in H as [_ H].
  rewrite Hd. apply (forall_chars_impl plain_char _ s Hp H).
Qed.

(** The parser on a plain https URL: a host of lower-case letters and
    dots, a path of plain characters without dot segments, a plain query
    and a plain fragment are the components of the URL, as written. *)
Lemma new_URL_plain_https (h body : string) (q f : option string) :
  h <> EmptyString -> forall_chars host_char h = true ->
  forall_chars path_char body = true -> no_dot_segments body = true ->
  plain_component q = true -> plain_component f = true ->
  Whatwg.new_URL
    ("https://" ++ h ++ "/" ++ body ++ component "?" q ++ component "#" f)
    None
  = Some (mkURL "https" EmptyString EmptyString (Some h) None
                ("/" ++ body) false q f).
Proof.
  intros Hne Hh Hb Hd Hq Hf.
  set (P := "https://" ++ h ++ "/" ++ body).
  assert (E : "https://" ++ h ++ "/" ++ body ++ component "?" q
                ++ component "#" f
              = (P ++ component "?" q) ++ component "#" f).
  { unfold P. rewrite !append_assoc. reflexivity. }
  rewrite E. clear E.
  assert (HP : forall Q : ascii -> bool,
             Q "h"%char = true -> Q "t"%char = true -> Q "p"%char = true ->
             Q "s"%char = true -> Q ":"%char = true -> Q "/"%char = true ->
             (forall c, host_char c = true -> Q c = true) ->
             (forall c, path_char c = true -> Q c = true) ->
             forall_chars Q P = true).
  { intros Q Q1 Q2 Q3 Q4 Q5 Q6 QH QP. unfold P.
    change ("https://" ++ h ++ "/" ++ body)
      with ("https://" ++ (h ++ String "/" body)).
    rewrite forall_chars_app. simpl forall_chars at 1.
    rewrite Q1, Q2, Q3, Q4, Q5, Q6. cbn [andb].
    rewrite forall_chars_app. cbn [forall_chars].
    rewrite (forall_chars_impl host_char Q h QH Hh), Q6.
    apply (forall_chars_impl path_char Q body QP Hb). }
  unfold Whatwg.new_URL, Whatwg.basic_parse.
  rewrite clean_id.
  2:{ rewrite !forall_chars_app.
      rewrite HP; try reflexivity;
        try (intros c H; apply (host_char_facts c H));
        try (intros c H; apply (path_char_facts c H)).
      rewrite (component_chars _ "?" q); try reflexivity; try assumption;
        try (intros c H; apply (plain_char_facts c H)).
      rewrite (component_chars _ "#" f); try reflexivity; try assumption.
      intros c H; apply (plain_char_facts c H). }
  rewrite (cut_component "#" (P ++ component "?" q) f).
  2:{ rewrite forall_chars_app.
      rewrite HP; try reflexivity;
        try (intros c H; apply (host_char_facts c H));
        try (intros c H; apply (path_char_facts c H)).
      rewrite (component_chars _ "?" q); try reflexivity; try assumption.
      intros c H; apply (plain_char_facts c H). }
  rewrite (cut_component "?" P q).
  2:{ apply HP; try reflexivity;
        try (intros c H; apply (host_char_facts c H));
        try (intros c H; apply (path_char_facts c H)). }
  unfold P. rewrite split_scheme_https.
  change (is_special "https") with true. cbv iota beta.
  rewrite (option_encode_plain _ f) by
    (try assumption; intros c H; apply (plain_char_facts c H)).
  rewrite (option_encode_plain _ q) by
    (try assumption; intros c H; apply (plain_char_facts c H)).
  destruct h as [|c0 h0] eqn:Eh; [congruence|]. rewrite <- Eh in *.
  assert (Hsep : Whatwg.is_sep true c0 = false).
  { rewrite Eh in Hh. simpl in Hh. apply andb_true_iff in Hh as [H0 _].
    destruct (host_char_facts c0 H0) as (_ & _ & _ & _ & S & _).
    now apply negb_true_iff in S. }
  change ("//" ++ h ++ "/" ++ body)
    with (String "/" (String "/" (h ++ "/" ++ body))).
  rewrite !drop_while_cons by reflexivity.
  replace (Whatwg.drop_while (Whatwg.is_sep true) (h ++ "/" ++ body))
    with (h ++ "/" ++ body)
    by (rewrite Eh; symmetry; apply drop_while_head; exact Hsep).
  unfold Whatwg.authority_and_path.
  change (is_special "https") with true. cbv iota beta zeta.
  rewrite (span_app _ h ("/" ++ body)).
  2:{ apply (forall_chars_impl host_char _ h); [|exact Hh].
      intros c H. apply (host_char_facts c H). }
  2:{ reflexivity. }
  rewrite (cut_last_none "@" h).
  2:{ apply (forall_chars_impl host_char _ h); [|exact Hh].
      intros c H. apply (host_char_facts c H). }
  rewrite (span_host_plain h Hh).
  rewrite (parse_host_plain h Hne Hh).
  assert (N : String.eqb h EmptyString = false) by now apply String.eqb_neq.
  rewrite N. cbn [andb].
  change ("/" ++ body) with (String "/" body).
  cbv iota.
  change (String "/" body) with ("/" ++ body).
  now rewrite (absolute_path_plain body Hb Hd).
Qed.

Lemma search_component (q : option string) :
  plain_component q = true ->
  match q with
  | None => EmptyString
  | Some EmptyString => EmptyString
  | Some s => "?" ++ s
  end = component "?" q.
Proof.
  destruct q as [[|c s]|]; simpl; intros H; try reflexivity; discriminate H.
Qed.

Lemma hash_component (f : option string) :
  plain_component f = true ->
  match f with
  | None => EmptyString
  | Some EmptyString => EmptyString
  | Some s => "#" ++ s
  end = component "#" f.
Proof.
  destruct f as [[|c s]|]; simpl; intros H; try reflexivity; discriminate H.
Qed.

(** The transform on plain https URLs, with the parser above: the text
    after the host comes back byte for byte behind the scheme, host and
    port of [requestURL]; the labels of a subdomain stay in front. *)
Lemma convertToMaskedURL_plain_https
    (sub body : string) (q f : option string) (maskedURL requestURL : URL) :
  hostname maskedURL <> EmptyString ->
  forall_chars host_char (hostname maskedURL) = true ->
  forall_chars host_char sub = true ->
  forall_chars path_char body = true -> no_dot_segments body = true ->
  plain_component q = true -> plain_component f = true ->
  convertToMaskedURL Whatwg.new_URL
    ("https://" ++ hostname maskedURL ++ "/" ++ body
       ++ component "?" q ++ component "#" f)
    maskedURL requestURL
  = protocol requestURL ++ "//" ++ host requestURL ++ "/" ++ body
      ++ component "?" q ++ component "#" f
  /\
  (sub <> EmptyString ->
   convertToMaskedURL Whatwg.new_URL
     ("https://" ++ (sub ++ "." ++ hostname maskedURL) ++ "/" ++ body
        ++ component "?" q ++ component "#" f)
     maskedURL requestURL
   = protocol requestURL ++ "//" ++ sub ++ "." ++ host requestURL
       ++ "/" ++ body ++ component "?" q ++ component "#" f).
Proof.
  intros Hne Hh Hs Hb Hd Hq Hf. split.
  - unfold convertToMaskedURL, resolve_reference.
    change (JS.startsWith ("https://" ++ ?x) "data:") with false.
    cbv iota.
    change (JS.startsWith
              ("https://" ++ hostname maskedURL ++ "/" ++ body
                 ++ component "?" q ++ component "#" f) "/") with false.
    cbv iota.
    rewrite (new_URL_plain_https _ body q f Hne Hh Hb Hd Hq Hf).
    set (u := mkURL "https" EmptyString EmptyString
                (Some (hostname maskedURL)) None ("/" ++ body) false q f).
    change (protocol u) with "https:".
    change (hostname u) with (hostname maskedURL).
    change (pathname u) with ("/" ++ body).
    rewrite (search_component q Hq : search u = component "?" q).
    rewrite (hash_component f Hf : hash u = component "#" f).
    change (String.eqb "https:" "http:") with false.
    change (String.eqb "https:" "https:") with true.
    cbn [orb negb]. rewrite String.eqb_refl.
    now rewrite !append_assoc.
  - intros Hsub.
    assert (Hne' : sub ++ "." ++ hostname maskedURL <> EmptyString)
      by (destruct sub; [congruence | discriminate]).
    assert (Hh' : forall_chars host_char (sub ++ "." ++ hostname maskedURL)
                  = true).
    { rewrite forall_chars_app, Hs. simpl. exact Hh. }
    unfold convertToMaskedURL, resolve_reference.
    change (JS.startsWith ("https://" ++ ?x) "data:") with false.
    cbv iota.
    change (JS.startsWith
              ("https://" ++ (sub ++ "." ++ hostname maskedURL) ++ "/"
                 ++ body ++ component "?" q ++ component "#" f) "/")
      with false.
    cbv iota.
    rewrite (new_URL_plain_https _ body q f Hne' Hh' Hb Hd Hq Hf).
    set (u := mkURL "https" EmptyString EmptyString
                (Some (sub ++ "." ++ hostname maskedURL)) None
                ("/" ++ body) false q f).
    change (protocol u) with "https:".
    change (hostname u) with (sub ++ ("." ++ hostname maskedURL)).
    change (pathname u) with ("/" ++ body).
    rewrite (search_component q Hq : search u = component "?" q).
    rewrite (hash_component f Hf : hash u = component "#" f).
    change (String.eqb "https:" "http:") with false.
    change (String.eqb "https:" "https:") with true.
    cbn [orb negb].
    assert (E : String.eqb (sub ++ ("." ++ hostname maskedURL))
                           (hostname maskedURL) = false).
    { apply String.eqb_neq. intros H.
      apply (f_equal String.length) in H.
      rewrite length_app in H. simpl in H. lia. }
    rewrite E, strip_suffix_app.
    now rewrite !append_assoc.
Qed.

Example convertToMaskedURL_plain_https_test :
  convertToMaskedURL Whatwg.new_URL
    ("https://" ++ hostname masked_url ++ "/" ++ "api/test"
       ++ component "?" (Some "param=value") ++ component "#" (Some "fragment"))
    masked_url request_url
  = "https://example.com/api/test?param=value#fragment".
Proof.
  rewrite (proj1 (convertToMaskedURL_plain_https "api" "api/test"
                    (Some "param=value") (Some "fragment")
                    masked_url request_url
                    ltac:(vm_compute; discriminate)
                    eq_refl eq_refl eq_refl eq_refl eq_refl eq_refl)).
  vm_compute. reflexivity.
Qed.
